(** * Adafruit_CCS811: register protocol of the CCS811 air-quality driver

    A shallow embedding of [Adafruit_CCS811/Adafruit_CCS811.py].  Python
    integers are [Z]; the bit operators [<<], [>>], [&], [|] are
    [Z.shiftl], [Z.shiftr], [Z.land], [Z.lor].  Exceptions are an explicit
    error result.  The I2C device is an interface (a type class); the
    driver threads the device state and its own fields through a small
    state-and-exception monad. *)

From Stdlib Require Import ZArith List Lia QArith Reals Lra.
From stdpp Require Import gmap strings list.

Local Open Scope string_scope.
Local Open Scope Z_scope.

(** ** Python exceptions and results *)

Inductive exn : Type :=
| ValueError (mode : Z)          (* 'Unexpected mode value {0}. ...'.format(mode) *)
| TypeError
| ZeroDivisionError
| MathDomainError                (* ValueError: math domain error *)
| NegativeShiftCount             (* ValueError: negative shift count *)
| IndexError
| IOError                        (* a failure of the bus transport *)
| Exception (msg : string).

Inductive result (A : Type) : Type :=
| Ok (a : A)
| Raise (e : exn).
Arguments Ok {A} a.
Arguments Raise {A} e.

Definition is_raise {A} (r : result A) : bool :=
  match r with Ok _ => false | Raise _ => true end.

(** ** Register map and constants (lines 27-56 of the module) *)

Definition CCS811_ADDRESS : Z := 0x5A.

Definition CCS811_STATUS : Z := 0x00.
Definition CCS811_MEAS_MODE : Z := 0x01.
Definition CCS811_ALG_RESULT_DATA : Z := 0x02.
Definition CCS811_RAW_DATA : Z := 0x03.
Definition CCS811_ENV_DATA : Z := 0x05.
Definition CCS811_NTC : Z := 0x06.
Definition CCS811_THRESHOLDS : Z := 0x10.
Definition CCS811_BASELINE : Z := 0x11.
Definition CCS811_HW_ID : Z := 0x20.
Definition CCS811_HW_VERSION : Z := 0x21.
Definition CCS811_FW_BOOT_VERSION : Z := 0x23.
Definition CCS811_FW_APP_VERSION : Z := 0x24.
Definition CCS811_ERROR_ID : Z := 0xE0.
Definition CCS811_SW_RESET : Z := 0xFF.

Definition CCS811_BOOTLOADER_APP_ERASE : Z := 0xF1.
Definition CCS811_BOOTLOADER_APP_DATA : Z := 0xF2.
Definition CCS811_BOOTLOADER_APP_VERIFY : Z := 0xF3.
Definition CCS811_BOOTLOADER_APP_START : Z := 0xF4.

Definition CCS811_DRIVE_MODE_IDLE : Z := 0x00.
Definition CCS811_DRIVE_MODE_1SEC : Z := 0x01.
Definition CCS811_DRIVE_MODE_10SEC : Z := 0x02.
Definition CCS811_DRIVE_MODE_60SEC : Z := 0x03.
Definition CCS811_DRIVE_MODE_250MS : Z := 0x04.

Definition CCS811_HW_ID_CODE : Z := 0x81.
Definition CCS811_REF_RESISTOR : Z := 100000.

(** ** The BitField codec *)

Module Bitfield.

(** A layout: named sub-fields with their widths, in declaration order. *)
Definition layout : Type := list (string * Z).

(** Modelled from the spec: the class [Adafruit_bitfield] is imported by
    the driver from a separate package and is not part of the sources.
    Following sections 3 and 4.1 of the specification, a bit field holds
    the full set of current field values next to its layout. *)
Record t : Type := Build {
  _structure : layout;
  attrs : gmap string Z
}.

(** Modelled from the spec: construction of an [Adafruit_bitfield], which
    is missing from the sources; every declared field starts at 0. *)
Definition init (structure : layout) : t :=
  {| _structure := structure;
     attrs := fold_left (fun m kv => <[fst kv := 0]> m) structure ∅ |}.

(** Reading the attribute [bf.key].  Every declared field holds a value
    from construction on; a name that was never declared reads as 0 here. *)
Definition field (bf : t) (key : string) : Z :=
  default 0 (attrs bf !! key).

(** The assignment [bf.key = v]. *)
Definition setfield (bf : t) (key : string) (v : Z) : t :=
  {| _structure := _structure bf; attrs := <[key := v]> (attrs bf) |}.

Definition mask (width : Z) : Z := 2 ^ width - 1.

Definition get_step (bf : t) (acc : Z * Z) (kv : string * Z) : Z * Z :=
  let '(fullreg, pos) := acc in
  let '(key, value) := kv in
  (Z.lor fullreg (Z.shiftl (Z.land (field bf key) (mask value)) pos),
   pos + value).

(** Modelled from the spec: [encode] of section 4.1, the method [get] of
    the missing class: it OR-combines each field's masked value shifted
    to its position, least-significant field first. *)
Definition get (bf : t) : Z :=
  fst (fold_left (get_step bf) (_structure bf) (0, 0)).

Definition set_step (data : Z) (acc : gmap string Z * Z) (kv : string * Z)
  : gmap string Z * Z :=
  let '(m, pos) := acc in
  let '(key, value) := kv in
  (<[key := Z.land (Z.shiftr data pos) (mask value)]> m, pos + value).

(** Modelled from the spec: [decode] of section 4.1, the method [set] of
    the missing class: every field is extracted from the byte by shifting
    and masking; the whole set of values is replaced. *)
Definition set (bf : t) (data : Z) : t :=
  {| _structure := _structure bf;
     attrs := fst (fold_left (set_step data) (_structure bf) (attrs bf, 0)) |}.

(** The fields of [l] laid out from bit [pos] on: what the loop of [get]
    adds to its accumulator. *)
Fixpoint packed (bf : t) (pos : Z) (l : layout) : Z :=
  match l with
  | [] => 0
  | (key, value) :: l' =>
      Z.lor (Z.shiftl (Z.land (field bf key) (mask value)) pos)
            (packed bf (pos + value) l')
  end.

(** A layout is valid when its names are pairwise distinct, its widths
    are bit counts and they fit the 8-bit backing register. *)
Definition total_width (l : layout) : Z :=
  fold_right (fun kv s => snd kv + s) 0 l.

Definition valid_layout (l : layout) : Prop :=
  NoDup (map fst l) /\ Forall (fun kv => 0 <= snd kv) l /\ total_width l <= 8.

#[global] Instance valid_layout_dec l : Decision (valid_layout l).
Proof. unfold valid_layout. apply _. Defined.

End Bitfield.

(** The three register layouts of the driver (lines 72-76). *)

Definition STATUS_layout : Bitfield.layout :=
  [("ERROR", 1); ("unused", 2); ("DATA_READY", 1); ("APP_VALID", 1);
   ("unused2", 2); ("FW_MODE", 1)].

Definition MEAS_MODE_layout : Bitfield.layout :=
  [("unused", 2); ("INT_THRESH", 1); ("INT_DATARDY", 1); ("DRIVE_MODE", 3)].

Definition ERROR_ID_layout : Bitfield.layout :=
  [("WRITE_REG_INVALID", 1); ("READ_REG_INVALID", 1); ("MEASMODE_INVALID", 1);
   ("MAX_RESISTANCE", 1); ("HEATER_FAULT", 1); ("HEATER_SUPPLY", 1)].

(** ** The I2C device (external collaborator)

    The driver talks to the object returned by [i2c.get_i2c_device]
    through four methods.  The device is a state machine of its own, so
    every method takes and returns the device state; a transport failure
    is a raised [IOError]. *)

Class I2CDevice (D : Type) : Type := {
  readU8 : Z -> D -> result Z * D;
  readList : Z -> Z -> D -> result (list Z) * D;
  write8 : Z -> Z -> D -> result unit * D;
  writeList : Z -> list Z -> D -> result unit * D
}.

(** Bus transactions, as a mock counting accesses would record them. *)
Inductive bus_event : Type :=
| EvReadU8 (register : Z) (r : result Z)
| EvReadList (register length : Z) (r : result (list Z))
| EvWrite8 (register value : Z)
| EvWriteList (register : Z) (data : list Z).

(** Any device together with the chronological list of its transactions. *)
Record Logged (D : Type) : Type := MkLogged {
  inner : D;
  log : list bus_event
}.
Arguments MkLogged {D} inner log.
Arguments inner {D} l.
Arguments log {D} l.

#[global] Instance Logged_I2C {D} `{I2CDevice D} : I2CDevice (Logged D) := {
  readU8 reg d :=
    let '(r, i) := readU8 reg (inner d) in
    (r, MkLogged i (log d ++ [EvReadU8 reg r]));
  readList reg n d :=
    let '(r, i) := readList reg n (inner d) in
    (r, MkLogged i (log d ++ [EvReadList reg n r]));
  write8 reg v d :=
    let '(r, i) := write8 reg v (inner d) in
    (r, MkLogged i (log d ++ [EvWrite8 reg v]));
  writeList reg l d :=
    let '(r, i) := writeList reg l (inner d) in
    (r, MkLogged i (log d ++ [EvWriteList reg l]))
}.

(** A register file used as a test double: a read answers with the stored
    bytes of the register, a write stores them. *)
Record RegFile : Type := MkRegFile { regs : gmap Z (list Z) }.

#[global] Instance RegFile_I2C : I2CDevice RegFile := {
  readU8 reg d :=
    match regs d !! reg with
    | Some (b :: _) => (Ok b, d)
    | _ => (Raise IOError, d)
    end;
  readList reg n d :=
    match regs d !! reg with
    | Some l => (Ok (take (Z.to_nat n) l), d)
    | None => (Raise IOError, d)
    end;
  write8 reg v d := (Ok tt, MkRegFile (<[reg := [v]]> (regs d)));
  writeList reg l d := (Ok tt, MkRegFile (<[reg := l]> (regs d)))
}.

(** ** Python numbers

    The driver is called with integers and with floats.  Binary64
    arithmetic is kept abstract: the driver only relies on the operations
    below.  [f_log] is [None] where [math.log] raises. *)

Class PyFloat (F : Type) : Type := {
  f_of_Z : Z -> F;                 (* float(n) *)
  f_lit : Q -> F;                  (* a decimal literal *)
  f_add : F -> F -> F;
  f_sub : F -> F -> F;
  f_mul : F -> F -> F;
  f_div : F -> F -> F;             (* the quotient for a nonzero divisor *)
  f_fmod : F -> F -> F;            (* C fmod for a nonzero divisor *)
  f_log : F -> option F;
  f_is_zero : F -> bool;           (* x == 0.0 *)
  f_of_Z_0 : f_is_zero (f_of_Z 0) = true
}.

Section PythonValues.
Context {F : Type} `{PyFloat F}.

Inductive pyval : Type :=
| PyBool (b : bool)
| PyInt (z : Z)
| PyFloat_ (x : F).

(** [bool] is a subclass of [int]. *)
Definition as_int (v : pyval) : option Z :=
  match v with
  | PyBool b => Some (Z.b2z b)
  | PyInt z => Some z
  | PyFloat_ _ => None
  end.

Definition as_float (v : pyval) : F :=
  match v with
  | PyBool b => f_of_Z (Z.b2z b)
  | PyInt z => f_of_Z z
  | PyFloat_ x => x
  end.

(** The bit operators are defined on integers only; a float operand
    raises [TypeError].  (Two [bool] operands, for which [&] and [|]
    answer a [bool], do not occur in the driver.) *)
Definition int_binop (op : Z -> Z -> Z) (a b : pyval) : result pyval :=
  match as_int a, as_int b with
  | Some x, Some y => Ok (PyInt (op x y))
  | _, _ => Raise TypeError
  end.

Definition int_shift (op : Z -> Z -> Z) (a b : pyval) : result pyval :=
  match as_int a, as_int b with
  | Some x, Some y =>
      if y <? 0 then Raise NegativeShiftCount else Ok (PyInt (op x y))
  | _, _ => Raise TypeError
  end.

Definition py_lshift : pyval -> pyval -> result pyval := int_shift Z.shiftl.
Definition py_rshift : pyval -> pyval -> result pyval := int_shift Z.shiftr.
Definition py_and : pyval -> pyval -> result pyval := int_binop Z.land.
Definition py_or : pyval -> pyval -> result pyval := int_binop Z.lor.

Definition py_add (a b : pyval) : result pyval :=
  match as_int a, as_int b with
  | Some x, Some y => Ok (PyInt (x + y))
  | _, _ => Ok (PyFloat_ (f_add (as_float a) (as_float b)))
  end.

Definition py_sub (a b : pyval) : result pyval :=
  match as_int a, as_int b with
  | Some x, Some y => Ok (PyInt (x - y))
  | _, _ => Ok (PyFloat_ (f_sub (as_float a) (as_float b)))
  end.

(** [a / b] for a float divisor: division by zero raises. *)
Definition float_div (a b : F) : result F :=
  if f_is_zero b then Raise ZeroDivisionError else Ok (f_div a b).

Definition py_div_float (a : pyval) (b : F) : result pyval :=
  match float_div (as_float a) b with
  | Ok q => Ok (PyFloat_ q)
  | Raise e => Raise e
  end.

(** [math.fmod] takes exactly two arguments; any other call raises
    [TypeError] before the arguments are looked at. *)
Definition math_fmod (args : list pyval) : result pyval :=
  match args with
  | [x; y] =>
      if f_is_zero (as_float y) then Raise MathDomainError
      else Ok (PyFloat_ (f_fmod (as_float x) (as_float y)))
  | _ => Raise TypeError
  end.

Definition math_log (x : F) : result F :=
  match f_log x with
  | Some y => Ok y
  | None => Raise MathDomainError
  end.

(** [v[i]]: numbers are not subscriptable. *)
Definition py_getitem (v : pyval) (i : Z) : result pyval := Raise TypeError.

(** [buf[i]] on a list read from the bus. *)
Definition list_getitem (buf : list Z) (i : nat) : result Z :=
  match buf !! i with
  | Some b => Ok b
  | None => Raise IndexError
  end.

(** The transport sends integers: a list holding a float is refused. *)
Fixpoint as_bus_data (l : list pyval) : result (list Z) :=
  match l with
  | [] => Ok []
  | v :: l' =>
      match as_int v, as_bus_data l' with
      | Some z, Ok zs => Ok (z :: zs)
      | None, _ => Raise TypeError
      | _, Raise e => Raise e
      end
  end.

End PythonValues.
Arguments pyval F : clear implicits.

(** ** A state-and-exception monad

    A method runs on a state and answers with a value or a raised
    exception; the state reached is kept in both cases, as the mutations
    made before a Python exception are. *)

Definition M (S A : Type) : Type := S -> result A * S.

Definition ret {S A} (a : A) : M S A := fun s => (Ok a, s).

Definition raise {S A} (e : exn) : M S A := fun s => (Raise e, s).

Definition bind {S A B} (c : M S A) (k : A -> M S B) : M S B :=
  fun s =>
    match c s with
    | (Ok a, s') => k a s'
    | (Raise e, s') => (Raise e, s')
    end.

Definition lift {S A} (r : result A) : M S A := fun s => (r, s).

Declare Scope py_scope.
Delimit Scope py_scope with py.
Notation "x <- c ;; k" := (bind c (fun x => k))
  (at level 100, c at next level, right associativity) : py_scope.
Notation "c ;;; k" := (bind c (fun _ => k))
  (at level 100, right associativity) : py_scope.

(** Truth value of an integer: [if (x)]. *)
Definition truthy (x : Z) : bool := negb (x =? 0).

(** ** The driver *)

Section Driver.
Context {D : Type} `{I2CDevice D} {F : Type} `{PyFloat F}.

(** The fields of an [Adafruit_CCS811] object.  [self._device] is a
    handle on the bus: the state of the device behind it is the second
    component of the monad's state. *)
Record CCS811 : Type := MkCCS811 {
  _status : Bitfield.t;
  _meas_mode : Bitfield.t;
  _error_id : Bitfield.t;
  _TVOC : Z;
  _eCO2 : Z;
  tempOffset : pyval F
}.

Definition set_status (b : Bitfield.t) (s : CCS811) : CCS811 :=
  MkCCS811 b (_meas_mode s) (_error_id s) (_TVOC s) (_eCO2 s) (tempOffset s).
Definition set_meas_mode (b : Bitfield.t) (s : CCS811) : CCS811 :=
  MkCCS811 (_status s) b (_error_id s) (_TVOC s) (_eCO2 s) (tempOffset s).
Definition set_TVOC (v : Z) (s : CCS811) : CCS811 :=
  MkCCS811 (_status s) (_meas_mode s) (_error_id s) v (_eCO2 s) (tempOffset s).
Definition set_eCO2 (v : Z) (s : CCS811) : CCS811 :=
  MkCCS811 (_status s) (_meas_mode s) (_error_id s) (_TVOC s) v (tempOffset s).
Definition set_tempOffset (v : pyval F) (s : CCS811) : CCS811 :=
  MkCCS811 (_status s) (_meas_mode s) (_error_id s) (_TVOC s) (_eCO2 s) v.

Definition Py (A : Type) : Type := M (CCS811 * D) A.

Definition get_self : Py CCS811 := fun s => (Ok (fst s), s).
Definition modify_self (f : CCS811 -> CCS811) : Py unit :=
  fun s => (Ok tt, (f (fst s), snd s)).

(** Calls on [self._device]. *)
Definition on_device {A} (op : D -> result A * D) : Py A :=
  fun s => let '(r, d) := op (snd s) in (r, (fst s, d)).
Definition device_readU8 (reg : Z) : Py Z := on_device (readU8 reg).
Definition device_readList (reg n : Z) : Py (list Z) := on_device (readList reg n).
Definition device_write8 (reg v : Z) : Py unit := on_device (write8 reg v).
Definition device_writeList (reg : Z) (l : list Z) : Py unit :=
  on_device (writeList reg l).

(** [sleep(.1)]: the settle delay has no effect on the modelled state. *)
Definition sleep (seconds : Q) : Py unit := ret tt.

Local Open Scope py_scope.

Definition setDriveMode (mode : Z) : Py unit :=
  modify_self (fun s =>
    set_meas_mode (Bitfield.setfield (_meas_mode s) "DRIVE_MODE" mode) s) ;;;
  self <- get_self ;;
  device_write8 CCS811_MEAS_MODE (Bitfield.get (_meas_mode self)).

Definition enableInterrupt : Py unit :=
  modify_self (fun s =>
    set_meas_mode (Bitfield.setfield (_meas_mode s) "INT_DATARDY" 1) s) ;;;
  self <- get_self ;;
  device_write8 CCS811_MEAS_MODE (Bitfield.get (_meas_mode self)).

Definition disableInterrupt : Py unit :=
  modify_self (fun s =>
    set_meas_mode (Bitfield.setfield (_meas_mode s) "INT_DATARDY" 0) s) ;;;
  self <- get_self ;;
  device_write8 CCS811_MEAS_MODE (Bitfield.get (_meas_mode self)).

Definition available : Py bool :=
  v <- device_readU8 CCS811_STATUS ;;
  modify_self (fun s => set_status (Bitfield.set (_status s) v) s) ;;;
  self <- get_self ;;
  if negb (truthy (Bitfield.field (_status self) "DATA_READY"))
  then ret false
  else ret true.

Definition readData : Py (pyval F) :=
  a <- available ;;
  if negb a then ret (PyBool false)
  else
    buf <- device_readList CCS811_ALG_RESULT_DATA 8 ;;
    b0 <- lift (list_getitem buf 0) ;;
    b1 <- lift (list_getitem buf 1) ;;
    modify_self (set_eCO2 (Z.lor (Z.shiftl b0 8) b1)) ;;;
    b2 <- lift (list_getitem buf 2) ;;
    b3 <- lift (list_getitem buf 3) ;;
    modify_self (set_TVOC (Z.lor (Z.shiftl b2 8) b3)) ;;;
    self <- get_self ;;
    if truthy (Bitfield.field (_status self) "ERROR")
    then b5 <- lift (list_getitem buf 5) ;; ret (PyInt b5)
    else ret (PyInt 0).

Definition setEnvironmentalData (humidity temperature : pyval F) : Py unit :=
  hum_perc <- lift (py_lshift humidity (PyInt 1)) ;;
  parts <- lift (math_fmod [temperature]) ;;
  fractional <- lift (py_getitem parts 0) ;;
  temperature <- lift (py_getitem parts 1) ;;
  t25 <- lift (py_add temperature (PyInt 25)) ;;
  temp_high <- lift (py_lshift t25 (PyInt 9)) ;;
  scaled <- lift (py_div_float fractional (f_lit (1 # 512))) ;;
  temp_low <- lift (py_and scaled (PyInt 0x1FF)) ;;
  temp_conv <- lift (py_or temp_high temp_low) ;;
  hi <- lift (py_rshift temp_conv (PyInt 8)) ;;
  hi <- lift (py_and hi (PyInt 0xFF)) ;;
  lo <- lift (py_and temp_conv (PyInt 0xFF)) ;;
  buf <- lift (as_bus_data [hum_perc; PyInt 0x00; hi; lo]) ;;
  device_writeList CCS811_ENV_DATA buf.

Definition calculateTemperature : Py (pyval F) :=
  buf <- device_readList CCS811_NTC 4 ;;
  b0 <- lift (list_getitem buf 0) ;;
  b1 <- lift (list_getitem buf 1) ;;
  let vref := Z.lor (Z.shiftl b0 8) b1 in
  b2 <- lift (list_getitem buf 2) ;;
  b3 <- lift (list_getitem buf 3) ;;
  let vrntc := Z.lor (Z.shiftl b2 8) b3 in
  rntc <- lift (float_div (f_mul (f_of_Z vrntc) (f_of_Z CCS811_REF_RESISTOR))
                          (f_of_Z vref)) ;;
  x <- lift (float_div rntc (f_lit 10000)) ;;
  ntc_temp <- lift (math_log x) ;;
  ntc_temp <- lift (float_div ntc_temp (f_lit 3380)) ;;
  k <- lift (float_div (f_lit 1) (f_add (f_of_Z 25) (f_lit (27315 # 100)))) ;;
  let ntc_temp := f_add ntc_temp k in
  ntc_temp <- lift (float_div (f_lit 1) ntc_temp) ;;
  let ntc_temp := f_sub ntc_temp (f_lit (27315 # 100)) in
  self <- get_self ;;
  lift (py_sub (PyFloat_ ntc_temp) (tempOffset self)).

Definition setThresholds (low_med med_high hysteresis : Z) : Py unit :=
  let buf := [Z.land (Z.shiftr low_med 8) 0xF; Z.land low_med 0xF;
              Z.land (Z.shiftr med_high 8) 0xF; Z.land med_high 0xF;
              hysteresis] in
  device_writeList CCS811_THRESHOLDS buf.

Definition SWReset : Py unit :=
  let seq := [0x11; 0xE5; 0x72; 0x8A] in
  device_writeList CCS811_SW_RESET seq.

Definition checkError : Py Z :=
  v <- device_readU8 CCS811_STATUS ;;
  modify_self (fun s => set_status (Bitfield.set (_status s) v) s) ;;;
  self <- get_self ;;
  ret (Bitfield.field (_status self) "ERROR").

Definition getTVOC : Py Z := self <- get_self ;; ret (_TVOC self).

Definition geteCO2 : Py Z := self <- get_self ;; ret (_eCO2 self).

(** The fields as lines 72-80 of the constructor set them. *)
Definition fresh : CCS811 :=
  {| _status := Bitfield.init STATUS_layout;
     _meas_mode := Bitfield.init MEAS_MODE_layout;
     _error_id := Bitfield.init ERROR_ID_layout;
     _TVOC := 0;
     _eCO2 := 0;
     tempOffset := PyInt 0 |}.

(** Lines 82-99 of the constructor. *)
Definition start : Py unit :=
  id <- device_readU8 CCS811_HW_ID ;;
  if negb (id =? CCS811_HW_ID_CODE)
  then raise (Exception "Device ID returned is not correct! Please check your wiring.")
  else
    device_writeList CCS811_BOOTLOADER_APP_START [] ;;;
    sleep (1 # 10) ;;;
    e <- checkError ;;
    if truthy e
    then raise (Exception "Device returned an Error! Try removing and reapplying power to the device and running the code again.")
    else
      self <- get_self ;;
      if negb (truthy (Bitfield.field (_status self) "FW_MODE"))
      then raise (Exception "Device did not enter application mode! If you got here, there may be a problem with the firmware on your sensor.")
      else
        disableInterrupt ;;;
        setDriveMode CCS811_DRIVE_MODE_1SEC.

(** The constructor.  [d] is the state of the device that
    [i2c.get_i2c_device(address)] gives access to; the answer is the new
    object, or the exception that left none, and the device state. *)
Definition __init__ (mode : Z) (d : D) : result CCS811 * D :=
  if negb (existsb (Z.eqb mode)
             [CCS811_DRIVE_MODE_IDLE; CCS811_DRIVE_MODE_1SEC;
              CCS811_DRIVE_MODE_10SEC; CCS811_DRIVE_MODE_60SEC;
              CCS811_DRIVE_MODE_250MS])
  then (Raise (ValueError mode), d)
  else
    match start (fresh, d) with
    | (Ok _, (self, d')) => (Ok self, d')
    | (Raise e, (_, d')) => (Raise e, d')
    end.

(** The register mirrors keep the layouts the constructor gave them. *)
Definition layouts_ok (self : CCS811) : Prop :=
  Bitfield._structure (_status self) = STATUS_layout /\
  Bitfield._structure (_meas_mode self) = MEAS_MODE_layout /\
  Bitfield._structure (_error_id self) = ERROR_ID_layout.

End Driver.
Arguments CCS811 F : clear implicits.

(** ** The example script (examples/CCS811_example.py)

    One turn of the script's main loop, lines 14-23. *)

Section Example.
Context {D : Type} `{I2CDevice D} {F : Type} `{PyFloat F}.

(** Truth value of a number: [if x], [not x]. *)
Definition py_truth (v : pyval F) : bool :=
  match v with
  | PyBool b => b
  | PyInt z => truthy z
  | PyFloat_ x => negb (f_is_zero x)
  end.

(** What a turn prints: the values of line 17, or the text of line 20. *)
Inductive printed : Type :=
| PrintReading (eCO2 TVOC : Z) (temp : pyval F)
| PrintError.

(** How a turn ends: at [sleep(2)], having printed a line or nothing, or
    in the empty loop of lines 21-22, which is never left. *)
Inductive turn : Type :=
| Slept (out : option printed)
| Stuck (out : printed).

Definition loop_body : Py (D := D) (F := F) turn :=
  (a <- available ;;
   if a then
     temp <- calculateTemperature ;;
     r <- readData ;;
     if negb (py_truth r) then
       eCO2 <- geteCO2 ;;
       TVOC <- getTVOC ;;
       sleep 2 ;;;
       ret (Slept (Some (PrintReading eCO2 TVOC temp)))
     else
       ret (Stuck PrintError)
   else
     sleep 2 ;;;
     ret (Slept None))%py.

End Example.
Arguments printed F : clear implicits.
Arguments turn F : clear implicits.

(** ** An instance of the float interface

    Idealised arithmetic on the real numbers: no rounding, no overflow.
    It serves to run the driver on concrete calls; no statement below
    depends on how it rounds. *)

Definition R_is_zero (x : R) : bool :=
  if Req_dec_T x 0%R then true else false.

Definition R_trunc (x : R) : Z :=
  if Rle_dec 0%R x then Int_part x else - Int_part (- x)%R.

Definition R_fmod (x y : R) : R := (x - IZR (R_trunc (x / y)) * y)%R.

Definition R_log (x : R) : option R :=
  if Rlt_dec 0%R x then Some (ln x) else None.

#[global] Instance R_PyFloat : PyFloat R.
Proof.
  refine {| f_of_Z := IZR;
            f_lit := Q2R;
            f_add := Rplus;
            f_sub := Rminus;
            f_mul := Rmult;
            f_div := Rdiv;
            f_fmod := R_fmod;
            f_log := R_log;
            f_is_zero := R_is_zero |}.
  unfold R_is_zero.
  destruct (Req_dec_T (IZR 0) 0%R); [reflexivity | contradiction].
Defined.

(** ** A test double for the sensor

    A register file holding the hardware id, a status byte, an
    algorithm-result block and an NTC block. *)

Definition sensor (status : Z) (alg ntc : list Z) : Logged RegFile :=
  MkLogged
    (MkRegFile (<[CCS811_HW_ID := [CCS811_HW_ID_CODE]]>
               (<[CCS811_STATUS := [status]]>
               (<[CCS811_ALG_RESULT_DATA := alg]>
               (<[CCS811_NTC := ntc]> ∅)))))
    [].

(** The driver object the constructor answers with on a sensor in
    application mode. *)
Definition running_self : CCS811 R :=
  match __init__ CCS811_DRIVE_MODE_1SEC (sensor 0x90 [] []) with
  | (Ok self, _) => self
  | (Raise _, _) => fresh
  end.

(** The device after one more transaction. *)
Definition after (d : Logged RegFile) (ev : bus_event) : Logged RegFile :=
  MkLogged (inner d) (log d ++ [ev]).

(** The algorithm-result payload of the specification's example, and one
    with the error code 7 in byte 5. *)
Definition alg_400_50 : list Z := [0x01; 0x90; 0x00; 0x32; 0x00; 0x00; 0x00; 0x00].
Definition alg_error_7 : list Z := [0x01; 0x90; 0x00; 0x32; 0x00; 0x07; 0x00; 0x00].

(** An NTC payload whose reference voltage is zero. *)
Definition ntc_vref_0 : list Z := [0x00; 0x00; 0x12; 0x34].

(** Construction with the ten-second drive mode on a sensor in
    application mode. *)
Definition init_10SEC : result (CCS811 R) * Logged RegFile :=
  __init__ CCS811_DRIVE_MODE_10SEC (sensor 0x90 [] []).

(** A measurement-mode mirror holding a drive mode wider than its field. *)
Definition wide_mode : Bitfield.t :=
  Bitfield.setfield (Bitfield.init MEAS_MODE_layout) "DRIVE_MODE" 13.

(** A device that answers the hardware-id read with [hw_id] and has no
    other register. *)
Definition other_chip (hw_id : Z) : Logged RegFile :=
  MkLogged (MkRegFile (<[CCS811_HW_ID := [hw_id]]> ∅)) [].

(** A device whose only register is the status register. *)
Definition status_only (status : Z) : Logged RegFile :=
  MkLogged (MkRegFile (<[CCS811_STATUS := [status]]> ∅)) [].

(** An NTC payload with vref = 10 and vrntc = 1: the thermistor is at
    its nominal 10 kOhm. *)
Definition ntc_nominal : list Z := [0x00; 0x0A; 0x00; 0x01].

(** A sensor whose status register answers with a queue of bytes, one
    per read, so that its status can change between two polls; its other
    registers are a register file. *)
Record Queued : Type := MkQueued { statuses : list Z; file : RegFile }.

#[global] Instance Queued_I2C : I2CDevice Queued := {
  readU8 reg d :=
    if reg =? CCS811_STATUS then
      match statuses d with
      | s :: rest => (Ok s, MkQueued rest (file d))
      | [] => (Raise IOError, d)
      end
    else
      let '(r, f) := readU8 reg (file d) in (r, MkQueued (statuses d) f);
  readList reg n d :=
    let '(r, f) := readList reg n (file d) in (r, MkQueued (statuses d) f);
  write8 reg v d :=
    let '(r, f) := write8 reg v (file d) in (r, MkQueued (statuses d) f);
  writeList reg l d :=
    let '(r, f) := writeList reg l (file d) in (r, MkQueued (statuses d) f)
}.

Definition queued_sensor (statuses : list Z) (alg ntc : list Z) : Logged Queued :=
  MkLogged (MkQueued statuses (inner (sensor 0x00 alg ntc))) [].

(** A driver object holding the measurements 400 ppm and 50 ppb from an
    earlier read, and a result block with other values. *)
Definition measured_self : CCS811 R := set_TVOC 50 (set_eCO2 400 running_self).
Definition alg_800_100 : list Z := [0x03; 0x20; 0x00; 0x64; 0x00; 0x00; 0x00; 0x00].

(** * Properties *)

(** ** The BitField codec *)

Example status_decode_0x98 :
  let bf := Bitfield.set (Bitfield.init STATUS_layout) 0x98 in
  (Bitfield.field bf "ERROR", Bitfield.field bf "DATA_READY",
   Bitfield.field bf "APP_VALID", Bitfield.field bf "FW_MODE") = (0, 1, 1, 1).
Proof. vm_compute. reflexivity. Qed.

Example meas_mode_encode :
  Bitfield.get (Bitfield.setfield (Bitfield.init MEAS_MODE_layout) "DRIVE_MODE" 2) = 0x20.
Proof. vm_compute. reflexivity. Qed.

Section BitfieldFacts.
Import Bitfield.

Lemma mask_ones w : mask w = Z.ones w.
Proof. unfold mask. rewrite Z.ones_equiv. lia. Qed.

Lemma mask_range v w : 0 <= w -> 0 <= Z.land v (mask w) < 2 ^ w.
Proof.
  intros Hw. rewrite mask_ones, Z.land_ones by lia.
  apply Z.mod_pos_bound. apply Z.pow_pos_nonneg; lia.
Qed.

Lemma get_fold bf l acc pos :
  fold_left (get_step bf) l (acc, pos)
  = (Z.lor acc (packed bf pos l), pos + total_width l).
Proof.
  revert acc pos. induction l as [|[k w] l IH]; intros acc pos; simpl.
  - rewrite Z.lor_0_r. f_equal. lia.
  - rewrite IH. f_equal.
    + now rewrite Z.lor_assoc.
    + lia.
Qed.

Lemma get_packed bf : get bf = packed bf 0 (_structure bf).
Proof. unfold get. rewrite get_fold. reflexivity. Qed.

(** Bit [i] of a field placed at [pos]. *)
Lemma placed_bit v w pos i :
  0 <= w -> 0 <= pos -> 0 <= i ->
  Z.testbit (Z.shiftl (Z.land v (mask w)) pos) i
  = (pos <=? i) && (i <? pos + w) && Z.testbit v (i - pos).
Proof.
  intros Hw Hpos Hi. rewrite Z.shiftl_spec by lia.
  destruct (Z.leb_spec pos i) as [Hle|Hlt]; simpl.
  - rewrite Z.land_spec, mask_ones, Z.testbit_ones_nonneg by lia.
    rewrite andb_comm. f_equal.
    destruct (Z.ltb_spec (i - pos) w), (Z.ltb_spec i (pos + w)); try lia; reflexivity.
  - apply Z.testbit_neg_r. lia.
Qed.

Lemma packed_low bf l : forall pos i,
  0 <= pos -> Forall (fun kv => 0 <= snd kv) l -> i < pos ->
  Z.testbit (packed bf pos l) i = false.
Proof.
  induction l as [|[k w] l IH]; intros pos i Hpos Hl Hi; simpl.
  - apply Z.bits_0.
  - inversion Hl as [|? ? Hw Hl']; subst; simpl in Hw.
    destruct (Z.lt_ge_cases i 0) as [Hneg|Hnn].
    { apply Z.testbit_neg_r; assumption. }
    rewrite Z.lor_spec, placed_bit by lia.
    rewrite IH by (trivial; lia).
    destruct (Z.leb_spec pos i); [lia | reflexivity].
Qed.

Lemma lor_range x y n :
  0 <= n -> 0 <= x < 2 ^ n -> 0 <= y < 2 ^ n -> 0 <= Z.lor x y < 2 ^ n.
Proof.
  intros Hn Hx Hy.
  assert (H0 : 0 <= Z.lor x y) by (apply Z.lor_nonneg; lia).
  split; [exact H0|].
  destruct (Z.eq_dec (Z.lor x y) 0) as [E|Hnz].
  { rewrite E. apply Z.pow_pos_nonneg; lia. }
  destruct (Z.eq_dec n 0) as [E|Hn0].
  { exfalso. apply Hnz. subst n. change (2 ^ 0) with 1 in *.
    replace x with 0 by lia. replace y with 0 by lia. reflexivity. }
  apply Z.log2_lt_pow2; [lia|].
  rewrite Z.log2_lor by lia.
  apply Z.max_lub_lt.
  - destruct (Z.eq_dec x 0) as [->|]; [simpl; lia|]. apply Z.log2_lt_pow2; lia.
  - destruct (Z.eq_dec y 0) as [->|]; [simpl; lia|]. apply Z.log2_lt_pow2; lia.
Qed.

Lemma packed_range bf l : forall pos,
  0 <= pos -> Forall (fun kv => 0 <= snd kv) l ->
  0 <= packed bf pos l < 2 ^ (pos + total_width l).
Proof.
  induction l as [|[k w] l IH]; intros pos Hpos Hl; simpl.
  - split; [lia | apply Z.pow_pos_nonneg; lia].
  - inversion Hl as [|? ? Hw Hl']; subst; simpl in Hw.
    specialize (IH (pos + w) ltac:(lia) Hl').
    replace (pos + w + total_width l) with (pos + (w + total_width l)) in IH by lia.
    assert (Htw : 0 <= total_width l).
    { clear -Hl'. induction Hl' as [|[? ?] ? ? ? IH']; simpl in *; lia. }
    pose proof (mask_range (field bf k) w Hw) as Hm.
    set (a := Z.land (field bf k) (mask w)) in *.
    assert (Ha : 0 <= Z.shiftl a pos < 2 ^ (pos + (w + total_width l))).
    { rewrite Z.shiftl_mul_pow2 by lia. split; [nia|].
      apply Z.lt_le_trans with (2 ^ w * 2 ^ pos); [nia|].
      rewrite <- Z.pow_add_r by lia. apply Z.pow_le_mono_r; lia. }
    apply lor_range; [lia | exact Ha | exact IH].
Qed.

Lemma set_fold_other data l : forall m pos k,
  k ∉ map fst l ->
  fst (fold_left (set_step data) l (m, pos)) !! k = m !! k.
Proof.
  induction l as [|[k' w] l IH]; intros m pos k Hk; simpl; [reflexivity|].
  simpl in Hk. apply not_elem_of_cons in Hk as [Hne Hk].
  rewrite IH by exact Hk. apply lookup_insert_ne. congruence.
Qed.

(** Extracting a field from a byte that agrees with the packed fields
    from its position on gives back the masked field. *)
Lemma extract_placed bf data k w l pos :
  0 <= pos -> 0 <= w -> Forall (fun kv => 0 <= snd kv) l ->
  (forall i, pos <= i ->
     Z.testbit data i = Z.testbit (packed bf pos ((k, w) :: l)) i) ->
  Z.land (Z.shiftr data pos) (mask w) = Z.land (field bf k) (mask w).
Proof.
  intros Hpos Hw Hl Hdata. apply Z.bits_inj'. intros i Hi.
  rewrite !Z.land_spec, mask_ones, Z.testbit_ones_nonneg by lia.
  destruct (Z.ltb_spec i w) as [Hlt|Hge]; [|now rewrite !andb_false_r].
  rewrite !andb_true_r, Z.shiftr_spec, Hdata by lia. simpl.
  rewrite Z.lor_spec, placed_bit, packed_low by (trivial; lia).
  rewrite orb_false_r.
  replace (i + pos - pos) with i by lia.
  destruct (Z.leb_spec pos (i + pos)), (Z.ltb_spec (i + pos) (pos + w));
    try lia; reflexivity.
Qed.

Lemma set_fold_field bf data l : forall m pos,
  0 <= pos -> Forall (fun kv => 0 <= snd kv) l -> NoDup (map fst l) ->
  (forall i, pos <= i -> Z.testbit data i = Z.testbit (packed bf pos l) i) ->
  forall k w, (k, w) ∈ l ->
    fst (fold_left (set_step data) l (m, pos)) !! k
    = Some (Z.land (field bf k) (mask w)).
Proof.
  induction l as [|[k0 w0] l IH]; intros m pos Hpos Hl Hnd Hdata k w Hin.
  - inversion Hin.
  - inversion Hl as [|? ? Hw0 Hl']; subst; simpl in Hw0.
    simpl in Hnd. apply NoDup_cons in Hnd as [Hfresh Hnd].
    simpl. apply elem_of_cons in Hin as [Heq|Hin].
    + inversion Heq; subst k0 w0.
      rewrite set_fold_other by exact Hfresh.
      rewrite lookup_insert_eq. f_equal.
      now apply extract_placed with (l := l).
    + apply IH; trivial; [lia|].
      intros i Hi. rewrite Hdata by lia. simpl.
      rewrite Z.lor_spec, placed_bit by lia.
      destruct (Z.ltb_spec i (pos + w0)); [lia|].
      now rewrite andb_false_r.
Qed.

(** C9. Round-trip law of the BitField codec: for every valid layout and
    every assignment of integers to its fields, the encoded value fits a
    byte, and decoding it (into any bit field of the same layout) gives,
    for each field of width [w], the assigned value truncated to its [w]
    low bits, that is, the value modulo [2 ^ w]. *)
Theorem bitfield_roundtrip (bf target : t) :
  valid_layout (_structure bf) ->
  _structure target = _structure bf ->
  0 <= get bf < 256 /\
  forall k w, In (k, w) (_structure bf) ->
    field (set target (get bf)) k = field bf k mod 2 ^ w.
Proof.
  intros (Hnd & Hw & Hsum) Hsame. split.
  - rewrite get_packed.
    pose proof (packed_range bf (_structure bf) 0 ltac:(lia) Hw) as [H0 Hlt].
    split; [exact H0|].
    apply Z.lt_le_trans with (1 := Hlt).
    change 256 with (2 ^ 8). apply Z.pow_le_mono_r; lia.
  - intros k w Hin. apply list_elem_of_In in Hin.
    assert (Hwk : 0 <= w).
    { rewrite Forall_forall in Hw. exact (Hw (k, w) Hin). }
    unfold field at 1, set. simpl. rewrite Hsame.
    erewrite set_fold_field; eauto; [|lia|].
    + simpl. rewrite mask_ones. now apply Z.land_ones.
    + intros i _. now rewrite get_packed.
Qed.

(** An instance of the law: the measurement-mode register with an
    over-wide drive mode. *)
Lemma bitfield_roundtrip_witness :
  0 <= get wide_mode < 256 /\
  forall k w, In (k, w) (_structure wide_mode) ->
    field (set wide_mode (get wide_mode)) k = field wide_mode k mod 2 ^ w.
Proof.
  apply (bitfield_roundtrip wide_mode wide_mode).
  - apply (@bool_decide_eq_true_1 _ (valid_layout_dec _)). vm_compute. reflexivity.
  - reflexivity.
Defined.

(** *** The layouts of the driver's registers *)

Lemma truthy_bit s n :
  0 <= n -> truthy (Z.land (Z.shiftr s n) (mask 1)) = Z.testbit s n.
Proof.
  intros Hn. change (mask 1) with (Z.ones 1).
  rewrite Z.land_ones by lia. change (2 ^ 1) with 2.
  rewrite <- Z.bit0_mod, Z.shiftr_spec by lia.
  rewrite Z.add_0_l. now destruct (Z.testbit s n).
Qed.

Lemma status_fields b s :
  _structure b = STATUS_layout ->
  truthy (field (set b s) "ERROR") = Z.testbit s 0 /\
  truthy (field (set b s) "DATA_READY") = Z.testbit s 3 /\
  truthy (field (set b s) "FW_MODE") = Z.testbit s 7.
Proof.
  intros Hb. unfold field, set. rewrite Hb. cbn [attrs fold_left STATUS_layout set_step fst].
  repeat split.
  all: repeat (rewrite lookup_insert_ne by discriminate).
  all: rewrite lookup_insert_eq; cbn [default]; apply truthy_bit; lia.
Qed.

End BitfieldFacts.

(** ** The driver *)

Ltac py_unfold :=
  unfold sleep, device_readU8, device_readList, device_write8,
    device_writeList, on_device, get_self, modify_self, lift, raise, ret,
    bind in *;
  cbn [fst snd] in *.

Section DriverFacts.
Context {D : Type} `{I2CDevice D} {F : Type} `{PyFloat F}.

Implicit Types (self : CCS811 F) (d : D).

(** What [available] does on a successful status read. *)
Lemma available_ok self d s d1 :
  layouts_ok self ->
  readU8 CCS811_STATUS d = (Ok s, d1) ->
  available (self, d)
  = (Ok (Z.testbit s 3), (set_status (Bitfield.set (_status self) s) self, d1)).
Proof.
  intros (Hst & _) Hread. unfold available. py_unfold. rewrite Hread.
  cbn [fst snd set_status _status].
  destruct (status_fields (_status self) s Hst) as (_ & -> & _).
  now destruct (Z.testbit s 3).
Qed.

Lemma available_raise self d e d1 :
  readU8 CCS811_STATUS d = (Raise e, d1) ->
  available (self, d) = (Raise e, (self, d1)).
Proof. intros Hread. unfold available. py_unfold. now rewrite Hread. Qed.

(** [readData] answers [False] only on its first branch. *)
Lemma readData_False_inv self d self' d' :
  readData (self, d) = (Ok (PyBool false), (self', d')) ->
  exists s, self' = set_status (Bitfield.set (_status self) s) self.
Proof.
  unfold readData, available. py_unfold.
  destruct (readU8 CCS811_STATUS d) as [[s|e] d1]; [|discriminate].
  cbn [fst snd].
  match goal with |- context [negb (truthy ?x)] => destruct (negb (truthy x)) end;
    cbn [negb fst snd].
  - intros [= <- <-]. now exists s.
  - destruct (readList CCS811_ALG_RESULT_DATA 8 d1) as [[buf|e] d2];
      cbn [fst snd]; [|discriminate].
    do 4 (match goal with
          | |- context [list_getitem buf ?i] =>
              destruct (list_getitem buf i); [|discriminate]
          end; cbn [fst snd]).
    match goal with |- context [truthy ?x] => destruct (truthy x) end;
      [|discriminate].
    destruct (list_getitem buf 5); discriminate.
Qed.

(** C10. Whenever [readData] returns the no-data sentinel [False], the
    measurements read through [geteCO2] and [getTVOC] are the ones
    stored before the call. *)
Theorem readData_no_data_keeps_measurements self d self' d' :
  readData (self, d) = (Ok (PyBool false), (self', d')) ->
  fst (geteCO2 (self', d')) = fst (geteCO2 (self, d)) /\
  fst (getTVOC (self', d')) = fst (getTVOC (self, d)).
Proof.
  intros Hrun. apply readData_False_inv in Hrun as [s ->].
  split; reflexivity.
Qed.

(** Two bytes combined as the driver does are the big-endian number. *)
Lemma big_endian_lor hi lo :
  0 <= lo < 256 -> Z.lor (Z.shiftl hi 8) lo = 256 * hi + lo.
Proof.
  intros Hlo.
  assert (Hdisj : Z.land (Z.shiftl hi 8) lo = 0).
  { apply Z.bits_inj'. intros i Hi. rewrite Z.land_spec, Z.bits_0.
    destruct (Z.lt_ge_cases i 8) as [Hlt|Hge].
    - now rewrite Z.shiftl_spec_low.
    - rewrite andb_comm.
      rewrite <- (Z.mod_small lo (2 ^ 8)) by (change (2 ^ 8) with 256; lia).
      now rewrite Z.mod_pow2_bits_high by lia. }
  rewrite <- Z.lxor_lor, <- Z.add_nocarry_lxor by exact Hdisj.
  rewrite Z.shiftl_mul_pow2 by lia. change (2 ^ 8) with 256. lia.
Qed.

(** The data branch of [readData], run on an 8-byte payload. *)
Lemma readData_ok self d s d1 b0 b1 b2 b3 b4 b5 b6 b7 d2 :
  layouts_ok self ->
  readU8 CCS811_STATUS d = (Ok s, d1) ->
  Z.testbit s 3 = true ->
  readList CCS811_ALG_RESULT_DATA 8 d1 = (Ok [b0; b1; b2; b3; b4; b5; b6; b7], d2) ->
  readData (self, d)
  = (Ok (PyInt (if Z.testbit s 0 then b5 else 0)),
     (set_TVOC (Z.lor (Z.shiftl b2 8) b3)
        (set_eCO2 (Z.lor (Z.shiftl b0 8) b1)
           (set_status (Bitfield.set (_status self) s) self)),
      d2)).
Proof.
  intros Hl Hread Hbit Hlist. unfold readData, bind at 1.
  rewrite (available_ok _ _ _ _ Hl Hread), Hbit. cbn [negb].
  py_unfold. rewrite Hlist. cbn [fst snd list_getitem lookup list_lookup].
  cbn [set_TVOC set_eCO2 set_status _status].
  destruct Hl as (Hst & _).
  destruct (status_fields (_status self) s Hst) as (-> & _ & _).
  now destruct (Z.testbit s 0).
Qed.

(** C3. When data is available and the algorithm-result payload is the
    8 bytes [b0 .. b7], [readData] stores eCO2 as the big-endian
    combination of bytes 0-1 and TVOC as that of bytes 2-3; on the
    payload 01 90 00 32 00 00 00 00 these are 400 and 50. *)
Theorem readData_stores_measurements self d s d1 b0 b1 b2 b3 b4 b5 b6 b7 d2 :
  layouts_ok self ->
  readU8 CCS811_STATUS d = (Ok s, d1) ->
  Z.testbit s 3 = true ->
  readList CCS811_ALG_RESULT_DATA 8 d1 = (Ok [b0; b1; b2; b3; b4; b5; b6; b7], d2) ->
  Forall (fun b => 0 <= b < 256) [b0; b1; b2; b3; b4; b5; b6; b7] ->
  exists r st',
    readData (self, d) = (Ok r, st') /\
    fst (geteCO2 st') = Ok (Z.lor (Z.shiftl b0 8) b1) /\
    fst (getTVOC st') = Ok (Z.lor (Z.shiftl b2 8) b3) /\
    Z.lor (Z.shiftl b0 8) b1 = 256 * b0 + b1 /\
    Z.lor (Z.shiftl b2 8) b3 = 256 * b2 + b3 /\
    ([b0; b1; b2; b3; b4; b5; b6; b7] = [0x01; 0x90; 0x00; 0x32; 0x00; 0x00; 0x00; 0x00] ->
     fst (geteCO2 st') = Ok 400 /\ fst (getTVOC st') = Ok 50).
Proof.
  intros Hl Hread Hbit Hlist Hbytes.
  eexists _, _. split; [eapply readData_ok; eassumption|].
  repeat apply Forall_cons in Hbytes as [? Hbytes].
  split; [reflexivity|]. split; [reflexivity|].
  split; [now apply big_endian_lor|]. split; [now apply big_endian_lor|].
  intros [= -> -> -> -> -> -> -> ->]. split; reflexivity.
Qed.

(** C5. On a successful [readData] with an 8-byte payload, the answer is
    payload byte 5 when the ERROR bit of the status mirror, refreshed by
    this very call, is set, and 0 otherwise. *)
Theorem readData_returns_error_byte self d s d1 b0 b1 b2 b3 b4 b5 b6 b7 d2 :
  layouts_ok self ->
  readU8 CCS811_STATUS d = (Ok s, d1) ->
  Z.testbit s 3 = true ->
  readList CCS811_ALG_RESULT_DATA 8 d1 = (Ok [b0; b1; b2; b3; b4; b5; b6; b7], d2) ->
  exists self',
    readData (self, d)
    = (Ok (PyInt (if truthy (Bitfield.field (_status self') "ERROR") then b5 else 0)),
       (self', d2)) /\
    _status self' = Bitfield.set (_status self) s /\
    truthy (Bitfield.field (_status self') "ERROR") = Z.testbit s 0.
Proof.
  intros Hl Hread Hbit Hlist.
  pose proof (readData_ok _ _ _ _ _ _ _ _ _ _ _ _ _ Hl Hread Hbit Hlist) as Hrun.
  destruct Hl as (Hst & _).
  destruct (status_fields (_status self) s Hst) as (Herr & _ & _).
  exists (set_TVOC (Z.lor (Z.shiftl b2 8) b3)
            (set_eCO2 (Z.lor (Z.shiftl b0 8) b1)
               (set_status (Bitfield.set (_status self) s) self))).
  split; [|split].
  - rewrite Hrun. cbn [set_TVOC set_eCO2 set_status _status]. now rewrite Herr.
  - reflexivity.
  - exact Herr.
Qed.

(** C4. Whenever the NTC payload has a zero vref (bytes 0-1),
    [calculateTemperature] raises [ZeroDivisionError]: it returns no
    value, be it a number, an infinity or a NaN. *)
Theorem calculateTemperature_vref_zero self d b0 b1 b2 b3 d1 :
  readList CCS811_NTC 4 d = (Ok [b0; b1; b2; b3], d1) ->
  Z.lor (Z.shiftl b0 8) b1 = 0 ->
  calculateTemperature (self, d) = (Raise ZeroDivisionError, (self, d1)).
Proof.
  intros Hlist Hvref. unfold calculateTemperature. py_unfold.
  rewrite Hlist. cbn [fst snd list_getitem lookup list_lookup].
  rewrite Hvref. unfold float_div. now rewrite f_of_Z_0.
Qed.

(** The environmental-data call raises [TypeError] on every input: on a
    float humidity at the shift, otherwise at the one-argument call of
    [math.fmod]; nothing is written. *)
Lemma setEnvironmentalData_raises (humidity temperature : pyval F) st :
  setEnvironmentalData humidity temperature st = (Raise TypeError, st).
Proof.
  unfold setEnvironmentalData. py_unfold.
  unfold py_lshift, int_shift. now destruct (as_int humidity).
Qed.

(** An unknown mode makes the constructor raise [ValueError] at once,
    with the device as it was. *)
Lemma init_invalid_mode mode d :
  ~ In mode [0; 1; 2; 3; 4] ->
  __init__ (F := F) mode d = (Raise (ValueError mode), d).
Proof.
  intros Hmode. unfold __init__.
  destruct (existsb _ _) eqn:E; [|reflexivity].
  apply existsb_exists in E as (m & Hin & Heq).
  apply Z.eqb_eq in Heq. subst m. contradiction.
Qed.

(** [layouts_ok] is an invariant of the polling calls: decoding a status
    byte replaces the values of a mirror, never its layout. *)
Lemma readData_layouts_ok self d :
  layouts_ok self -> layouts_ok (fst (snd (readData (self, d)))).
Proof.
  intros Hl. unfold readData, available. py_unfold.
  destruct (readU8 CCS811_STATUS d) as [[s|e] d1]; cbn [fst snd]; [|exact Hl].
  match goal with |- context [negb (truthy ?x)] => destruct (negb (truthy x)) end;
    cbn [negb fst snd]; [exact Hl|].
  destruct (readList CCS811_ALG_RESULT_DATA 8 d1) as [[buf|e] d2];
    cbn [fst snd]; [|exact Hl].
  do 4 (match goal with
        | |- context [list_getitem buf ?i] =>
            destruct (list_getitem buf i); cbn [fst snd]; [|exact Hl]
        end).
  match goal with |- context [truthy ?x] => destruct (truthy x) end;
    [destruct (list_getitem buf 5)|]; exact Hl.
Qed.

End DriverFacts.

(** ** Bus transactions *)

Section Transactions.
Context {D : Type} `{I2CDevice D} {F : Type} `{PyFloat F}.

Implicit Types (self : CCS811 F) (d : Logged D).

Lemma logged_readU8 reg d r d1 :
  readU8 reg d = (r, d1) -> log d1 = (log d ++ [EvReadU8 reg r])%list.
Proof.
  cbn [readU8 Logged_I2C]. destruct (readU8 reg (inner d)) as [r' i].
  now intros [= <- <-].
Qed.

(** C7. Whenever the DATA_READY bit (bit 3) of the status byte reads as
    0, [readData] returns [False], a value no data answer can be, and
    the only bus transaction issued is the status read: the
    algorithm-result block is not read. *)
Theorem readData_no_data self d s d1 :
  layouts_ok self ->
  readU8 CCS811_STATUS d = (Ok s, d1) ->
  Z.testbit s 3 = false ->
  exists self',
    readData (self, d) = (Ok (PyBool false), (self', d1)) /\
    log d1 = (log d ++ [EvReadU8 CCS811_STATUS (Ok s)])%list /\
    forall n : Z, @PyBool F false <> PyInt n.
Proof.
  intros Hl Hread Hbit. eexists. split; [|split].
  - unfold readData, bind.
    rewrite (available_ok _ _ _ _ Hl Hread), Hbit. reflexivity.
  - now apply logged_readU8.
  - discriminate.
Qed.

(** C6. For every mode outside {0, 1, 2, 3, 4} the constructor raises
    [ValueError] before any bus transaction: the device and its log of
    transactions are untouched. *)
Theorem init_invalid_mode_no_bus_access mode d :
  ~ In mode [0; 1; 2; 3; 4] ->
  fst (__init__ (F := F) mode d) = Raise (ValueError mode) /\
  snd (__init__ (F := F) mode d) = d /\
  log (snd (__init__ (F := F) mode d)) = log d.
Proof.
  intros Hmode. rewrite (init_invalid_mode mode d Hmode). repeat split.
Qed.

(** C8. For all integers [low_med], [med_high], [hysteresis], the one
    transaction of [setThresholds] is the write of the 5 bytes below to
    the threshold register; byte 0 is the low nibble of the high byte of
    [low_med]. *)
Theorem setThresholds_buffer self d low_med med_high hysteresis :
  exists r d',
    setThresholds low_med med_high hysteresis (self, d) = (r, (self, d')) /\
    log d' = (log d ++
      [EvWriteList CCS811_THRESHOLDS
         [Z.land (Z.shiftr low_med 8) 0xF; Z.land low_med 0xF;
          Z.land (Z.shiftr med_high 8) 0xF; Z.land med_high 0xF;
          hysteresis]])%list /\
    Z.land (Z.shiftr low_med 8) 0xF = (low_med / 256) mod 16 /\
    0 <= Z.land (Z.shiftr low_med 8) 0xF < 16.
Proof.
  unfold setThresholds. py_unfold. cbn [writeList Logged_I2C].
  destruct (writeList _ _ (inner d)) as [r i].
  eexists _, _. split; [reflexivity|]. split; [reflexivity|].
  change 0xF with (Z.ones 4). rewrite Z.land_ones, Z.shiftr_div_pow2 by lia.
  change (2 ^ 8) with 256. change (2 ^ 4) with 16.
  split; [reflexivity|]. apply Z.mod_pos_bound. lia.
Qed.

(** The measurement-mode byte the constructor ends with: interrupt
    disabled, drive mode 1 (one second) in bits 4-6. *)
Lemma meas_mode_byte_after_init :
  Bitfield.get
    (Bitfield.setfield
       (Bitfield.setfield (Bitfield.init MEAS_MODE_layout) "INT_DATARDY" 0)
       "DRIVE_MODE" CCS811_DRIVE_MODE_1SEC) = 0x10.
Proof. vm_compute. reflexivity. Qed.

Ltac run_device :=
  repeat (cbn [fst snd inner log readU8 readList write8 writeList Logged_I2C] in *;
          match goal with
          | |- context [@readU8 D ?i ?r ?x] =>
              destruct (@readU8 D i r x) as [[?|?] ?]
          | |- context [@write8 D ?i ?r ?v ?x] =>
              destruct (@write8 D i r v x) as [[?|?] ?]
          | |- context [@writeList D ?i ?r ?v ?x] =>
              destruct (@writeList D i r v x) as [[?|?] ?]
          | |- context [if ?b then _ else _] => destruct b eqn:?
          end);
  cbn [fst snd] in *.

(** Whatever valid mode is asked for, a successful construction leaves
    the mirrors with their layouts, the drive mode at one second, and
    the byte 0x10 as the last write to the measurement-mode register. *)
Lemma init_ok_inv mode d self d' :
  __init__ mode d = (Ok self, d') ->
  layouts_ok self /\
  Bitfield.field (_meas_mode self) "DRIVE_MODE" = CCS811_DRIVE_MODE_1SEC /\
  exists evs, log d' = (log d ++ evs)%list /\
              last evs = Some (EvWrite8 CCS811_MEAS_MODE 0x10).
Proof.
  unfold __init__, start, checkError, disableInterrupt, setDriveMode.
  py_unfold. run_device; try discriminate.
  intros [= <- <-].
  cbn [_meas_mode _status _error_id set_meas_mode set_status fresh log].
  split; [|split].
  - repeat split.
  - reflexivity.
  - rewrite meas_mode_byte_after_init. rewrite <- !app_assoc.
    eexists. split; reflexivity.
Qed.

End Transactions.

(** ** The driver on the test double *)

Lemma running_self_layouts : layouts_ok running_self.
Proof. repeat split; vm_compute; reflexivity. Qed.

(** C1. Construction with the ten-second mode (2) on a sensor in
    application mode succeeds, and its last write to the measurement-mode
    register is the byte 0x10, whose DRIVE_MODE field is 1 (one second):
    the mode asked for is not the one applied. *)
Theorem init_10SEC_applies_1SEC :
  is_raise (fst init_10SEC) = false /\
  log (snd init_10SEC)
  = [EvReadU8 CCS811_HW_ID (Ok 0x81);
     EvWriteList CCS811_BOOTLOADER_APP_START [];
     EvReadU8 CCS811_STATUS (Ok 0x90);
     EvWrite8 CCS811_MEAS_MODE 0x00;
     EvWrite8 CCS811_MEAS_MODE 0x10] /\
  Bitfield.field (Bitfield.set (Bitfield.init MEAS_MODE_layout) 0x10) "DRIVE_MODE"
  = CCS811_DRIVE_MODE_1SEC /\
  CCS811_DRIVE_MODE_1SEC <> CCS811_DRIVE_MODE_10SEC /\
  forall self, fst init_10SEC = Ok self ->
    Bitfield.field (_meas_mode self) "DRIVE_MODE" = CCS811_DRIVE_MODE_1SEC.
Proof.
  split; [vm_compute; reflexivity|].
  split; [vm_compute; reflexivity|].
  split; [vm_compute; reflexivity|].
  split; [discriminate|].
  intros self Hself.
  destruct init_10SEC as [r d'] eqn:E. cbn [fst] in Hself. subst r.
  now apply init_ok_inv in E as (_ & Hmode & _).
Qed.

(** C2. [setEnvironmentalData(50.0, 25.0)] raises [TypeError] and writes
    nothing; so does the call with the integers 50 and 25. *)
Theorem setEnvironmentalData_50_25_raises :
  setEnvironmentalData (PyFloat_ 50%R) (PyFloat_ 25%R) (running_self, sensor 0x90 [] [])
  = (Raise TypeError, (running_self, sensor 0x90 [] [])) /\
  setEnvironmentalData (PyInt 50) (PyInt 25) (running_self, sensor 0x90 [] [])
  = (Raise TypeError, (running_self, sensor 0x90 [] [])).
Proof. split; apply setEnvironmentalData_raises. Qed.

Lemma readData_stores_measurements_witness :
  exists r st',
    readData (running_self, sensor 0x98 alg_400_50 []) = (Ok r, st') /\
    fst (geteCO2 st') = Ok 400 /\ fst (getTVOC st') = Ok 50.
Proof.
  destruct (readData_stores_measurements
              running_self (sensor 0x98 alg_400_50 []) 0x98
              (after (sensor 0x98 alg_400_50 []) (EvReadU8 CCS811_STATUS (Ok 0x98)))
              0x01 0x90 0x00 0x32 0x00 0x00 0x00 0x00
              (after (after (sensor 0x98 alg_400_50 []) (EvReadU8 CCS811_STATUS (Ok 0x98)))
                     (EvReadList CCS811_ALG_RESULT_DATA 8 (Ok alg_400_50))))
    as (r & st' & Hrun & _ & _ & _ & _ & Hexample).
  - exact running_self_layouts.
  - vm_compute. reflexivity.
  - reflexivity.
  - vm_compute. reflexivity.
  - repeat constructor; lia.
  - exists r, st'. split; [exact Hrun|]. apply Hexample. reflexivity.
Defined.

Lemma readData_returns_error_byte_witness :
  exists self',
    readData (running_self, sensor 0x99 alg_error_7 [])
    = (Ok (PyInt (if truthy (Bitfield.field (_status self') "ERROR") then 7 else 0)),
       (self',
        after (after (sensor 0x99 alg_error_7 []) (EvReadU8 CCS811_STATUS (Ok 0x99)))
              (EvReadList CCS811_ALG_RESULT_DATA 8 (Ok alg_error_7)))) /\
    _status self' = Bitfield.set (_status running_self) 0x99 /\
    truthy (Bitfield.field (_status self') "ERROR") = Z.testbit 0x99 0.
Proof.
  apply (readData_returns_error_byte
           running_self (sensor 0x99 alg_error_7 []) 0x99
           (after (sensor 0x99 alg_error_7 []) (EvReadU8 CCS811_STATUS (Ok 0x99)))
           0x01 0x90 0x00 0x32 0x00 0x07 0x00 0x00).
  - exact running_self_layouts.
  - vm_compute. reflexivity.
  - reflexivity.
  - vm_compute. reflexivity.
Defined.

Lemma calculateTemperature_vref_zero_witness :
  calculateTemperature (running_self, sensor 0x90 [] ntc_vref_0)
  = (Raise ZeroDivisionError,
     (running_self,
      after (sensor 0x90 [] ntc_vref_0) (EvReadList CCS811_NTC 4 (Ok ntc_vref_0)))).
Proof.
  apply (calculateTemperature_vref_zero
           running_self (sensor 0x90 [] ntc_vref_0) 0x00 0x00 0x12 0x34).
  - vm_compute. reflexivity.
  - reflexivity.
Defined.

Lemma init_invalid_mode_no_bus_access_witness :
  fst (__init__ (F := R) 5 (sensor 0x90 [] [])) = Raise (ValueError 5) /\
  snd (__init__ (F := R) 5 (sensor 0x90 [] [])) = sensor 0x90 [] [] /\
  log (snd (__init__ (F := R) 5 (sensor 0x90 [] []))) = log (sensor 0x90 [] []).
Proof.
  apply (init_invalid_mode_no_bus_access 5 (sensor 0x90 [] [])).
  simpl. lia.
Defined.

Lemma readData_no_data_witness :
  exists self',
    readData (running_self, sensor 0x90 alg_400_50 [])
    = (Ok (PyBool false),
       (self', after (sensor 0x90 alg_400_50 []) (EvReadU8 CCS811_STATUS (Ok 0x90)))) /\
    log (after (sensor 0x90 alg_400_50 []) (EvReadU8 CCS811_STATUS (Ok 0x90)))
    = (log (sensor 0x90 alg_400_50 []) ++ [EvReadU8 CCS811_STATUS (Ok 0x90)])%list /\
    forall n : Z, @PyBool R false <> PyInt n.
Proof.
  apply (readData_no_data running_self (sensor 0x90 alg_400_50 []) 0x90).
  - exact running_self_layouts.
  - vm_compute. reflexivity.
  - reflexivity.
Defined.

Lemma readData_no_data_keeps_measurements_witness :
  fst (geteCO2 (set_status (Bitfield.set (_status running_self) 0x90) running_self,
                after (sensor 0x90 alg_400_50 []) (EvReadU8 CCS811_STATUS (Ok 0x90))))
  = fst (geteCO2 (running_self, sensor 0x90 alg_400_50 [])) /\
  fst (getTVOC (set_status (Bitfield.set (_status running_self) 0x90) running_self,
                after (sensor 0x90 alg_400_50 []) (EvReadU8 CCS811_STATUS (Ok 0x90))))
  = fst (getTVOC (running_self, sensor 0x90 alg_400_50 [])).
Proof.
  apply (readData_no_data_keeps_measurements
           running_self (sensor 0x90 alg_400_50 [])).
  vm_compute. reflexivity.
Defined.


(** ** The constructor's handshake *)

Ltac run_bus D :=
  repeat (cbn [fst snd inner log readU8 readList write8 writeList Logged_I2C] in *;
          match goal with
          | |- context [@readU8 D ?i ?r ?x] =>
              destruct (@readU8 D i r x) as [[?|?] ?]
          | |- context [@readList D ?i ?r ?n ?x] =>
              destruct (@readList D i r n x) as [[?|?] ?]
          | |- context [@write8 D ?i ?r ?v ?x] =>
              destruct (@write8 D i r v x) as [[?|?] ?]
          | |- context [@writeList D ?i ?r ?v ?x] =>
              destruct (@writeList D i r v x) as [[?|?] ?]
          end);
  cbn [fst snd inner log] in *.

Section Handshake.
Context {D : Type} `{I2CDevice D} {F : Type} `{PyFloat F}.

Implicit Types (self : CCS811 F) (d : Logged D).

Lemma valid_mode_accepted mode :
  In mode [0; 1; 2; 3; 4] ->
  existsb (Z.eqb mode)
    [CCS811_DRIVE_MODE_IDLE; CCS811_DRIVE_MODE_1SEC; CCS811_DRIVE_MODE_10SEC;
     CCS811_DRIVE_MODE_60SEC; CCS811_DRIVE_MODE_250MS] = true.
Proof.
  intros Hin. apply existsb_exists. exists mode. split; [exact Hin|].
  apply Z.eqb_refl.
Qed.

Lemma logged_readList reg n d r d1 :
  readList reg n d = (r, d1) -> log d1 = (log d ++ [EvReadList reg n r])%list.
Proof.
  cbn [readList Logged_I2C]. destruct (readList reg n (inner d)) as [r' i].
  now intros [= <- <-].
Qed.

Lemma logged_write8 reg v d r d1 :
  write8 reg v d = (r, d1) -> log d1 = (log d ++ [EvWrite8 reg v])%list.
Proof.
  cbn [write8 Logged_I2C]. destruct (write8 reg v (inner d)) as [r' i].
  now intros [= <- <-].
Qed.

Lemma logged_writeList reg l d r d1 :
  writeList reg l d = (r, d1) -> log d1 = (log d ++ [EvWriteList reg l])%list.
Proof.
  cbn [writeList Logged_I2C]. destruct (writeList reg l (inner d)) as [r' i].
  now intros [= <- <-].
Qed.

Lemma logged_readU8' reg d r d1 :
  readU8 reg d = (r, d1) -> log d1 = (log d ++ [EvReadU8 reg r])%list.
Proof.
  cbn [readU8 Logged_I2C]. destruct (readU8 reg (inner d)) as [r' i].
  now intros [= <- <-].
Qed.

Lemma meas_mode_byte_interrupt_off :
  Bitfield.get (Bitfield.setfield (Bitfield.init MEAS_MODE_layout) "INT_DATARDY" 0)
  = 0x00.
Proof. vm_compute. reflexivity. Qed.

(** X1. With an accepted mode, a hardware id other than 0x81 makes the
    constructor raise the wiring error; the id read is its only bus
    transaction, nothing is written to the device. *)
Theorem init_wrong_hw_id mode d id d1 :
  In mode [0; 1; 2; 3; 4] ->
  readU8 CCS811_HW_ID d = (Ok id, d1) ->
  id <> CCS811_HW_ID_CODE ->
  __init__ (F := F) mode d
  = (Raise (Exception "Device ID returned is not correct! Please check your wiring."),
     d1) /\
  log d1 = (log d ++ [EvReadU8 CCS811_HW_ID (Ok id)])%list.
Proof.
  intros Hmode Hread Hid. split; [|now apply logged_readU8'].
  unfold __init__. rewrite (valid_mode_accepted mode Hmode). cbn [negb].
  unfold start. py_unfold. rewrite Hread.
  apply Z.eqb_neq in Hid. now rewrite Hid.
Qed.

(** X2. When the status byte read after the start command has its ERROR
    bit (bit 0) set, the constructor raises the device error after three
    transactions (id read, start command, status read): the
    measurement-mode register is never written. *)
Theorem init_device_error mode d d1 d2 s d3 :
  In mode [0; 1; 2; 3; 4] ->
  readU8 CCS811_HW_ID d = (Ok CCS811_HW_ID_CODE, d1) ->
  writeList CCS811_BOOTLOADER_APP_START [] d1 = (Ok tt, d2) ->
  readU8 CCS811_STATUS d2 = (Ok s, d3) ->
  Z.testbit s 0 = true ->
  __init__ (F := F) mode d
  = (Raise (Exception "Device returned an Error! Try removing and reapplying power to the device and running the code again."),
     d3) /\
  log d3 = (log d ++ [EvReadU8 CCS811_HW_ID (Ok CCS811_HW_ID_CODE);
                      EvWriteList CCS811_BOOTLOADER_APP_START [];
                      EvReadU8 CCS811_STATUS (Ok s)])%list.
Proof.
  intros Hmode Hid Hstart Hstatus Herr. split.
  - unfold __init__. rewrite (valid_mode_accepted mode Hmode). cbn [negb].
    unfold start, checkError. py_unfold. rewrite Hid. cbn [fst snd]. rewrite Z.eqb_refl. cbn [negb fst snd].
    rewrite Hstart. cbn [fst snd]. rewrite Hstatus. cbn [fst snd set_status _status fresh].
    destruct (status_fields (Bitfield.init STATUS_layout) s eq_refl) as (-> & _ & _).
    now rewrite Herr.
  - rewrite (logged_readU8' _ _ _ _ Hstatus), (logged_writeList _ _ _ _ _ Hstart),
      (logged_readU8' _ _ _ _ Hid).
    now rewrite <- !app_assoc.
Qed.

(** X3. When the status byte shows no error but its FW_MODE bit (bit 7)
    is clear, the device is still in its boot loader: the constructor
    raises the application-mode error, again without writing the
    measurement-mode register. *)
Theorem init_boot_mode mode d d1 d2 s d3 :
  In mode [0; 1; 2; 3; 4] ->
  readU8 CCS811_HW_ID d = (Ok CCS811_HW_ID_CODE, d1) ->
  writeList CCS811_BOOTLOADER_APP_START [] d1 = (Ok tt, d2) ->
  readU8 CCS811_STATUS d2 = (Ok s, d3) ->
  Z.testbit s 0 = false ->
  Z.testbit s 7 = false ->
  __init__ (F := F) mode d
  = (Raise (Exception "Device did not enter application mode! If you got here, there may be a problem with the firmware on your sensor."),
     d3) /\
  log d3 = (log d ++ [EvReadU8 CCS811_HW_ID (Ok CCS811_HW_ID_CODE);
                      EvWriteList CCS811_BOOTLOADER_APP_START [];
                      EvReadU8 CCS811_STATUS (Ok s)])%list.
Proof.
  intros Hmode Hid Hstart Hstatus Herr Hfw. split.
  - unfold __init__. rewrite (valid_mode_accepted mode Hmode). cbn [negb].
    unfold start, checkError. py_unfold. rewrite Hid. cbn [fst snd]. rewrite Z.eqb_refl. cbn [negb fst snd].
    rewrite Hstart. cbn [fst snd]. rewrite Hstatus. cbn [fst snd set_status _status fresh].
    destruct (status_fields (Bitfield.init STATUS_layout) s eq_refl) as (He & _ & Hf).
    rewrite He, Herr. cbn [fst snd _status set_status]. now rewrite Hf, Hfw.
  - rewrite (logged_readU8' _ _ _ _ Hstatus), (logged_writeList _ _ _ _ _ Hstart),
      (logged_readU8' _ _ _ _ Hid).
    now rewrite <- !app_assoc.
Qed.

(** X4. On a device with the right id whose status shows application
    mode and no error, and whose bus accepts the writes, construction
    succeeds with exactly five transactions, the last two being the
    measurement-mode bytes 0x00 (interrupt off) and 0x10 (one-second
    mode); the new object reads eCO2 = 0 and TVOC = 0. *)
Theorem init_success mode d d1 d2 s d3 d4 d5 :
  In mode [0; 1; 2; 3; 4] ->
  readU8 CCS811_HW_ID d = (Ok CCS811_HW_ID_CODE, d1) ->
  writeList CCS811_BOOTLOADER_APP_START [] d1 = (Ok tt, d2) ->
  readU8 CCS811_STATUS d2 = (Ok s, d3) ->
  Z.testbit s 0 = false ->
  Z.testbit s 7 = true ->
  write8 CCS811_MEAS_MODE 0x00 d3 = (Ok tt, d4) ->
  write8 CCS811_MEAS_MODE 0x10 d4 = (Ok tt, d5) ->
  exists self,
    __init__ (F := F) mode d = (Ok self, d5) /\
    layouts_ok self /\
    fst (geteCO2 (self, d5)) = Ok 0 /\
    fst (getTVOC (self, d5)) = Ok 0 /\
    log d5 = (log d ++ [EvReadU8 CCS811_HW_ID (Ok CCS811_HW_ID_CODE);
                        EvWriteList CCS811_BOOTLOADER_APP_START [];
                        EvReadU8 CCS811_STATUS (Ok s);
                        EvWrite8 CCS811_MEAS_MODE 0x00;
                        EvWrite8 CCS811_MEAS_MODE 0x10])%list.
Proof.
  intros Hmode Hid Hstart Hstatus Herr Hfw Hw1 Hw2.
  eexists. split; [|split; [|split; [|split]]].
  - unfold __init__. rewrite (valid_mode_accepted mode Hmode). cbn [negb].
    unfold start, checkError, disableInterrupt, setDriveMode. py_unfold.
    rewrite Hid. cbn [fst snd]. rewrite Z.eqb_refl. cbn [negb fst snd].
    rewrite Hstart. cbn [fst snd]. rewrite Hstatus.
    cbn [fst snd set_status set_meas_mode _status _meas_mode fresh].
    destruct (status_fields (Bitfield.init STATUS_layout) s eq_refl) as (He & _ & Hf).
    rewrite He, Herr. cbn [fst snd _status set_status]. rewrite Hf, Hfw.
    cbn [negb fst snd set_meas_mode set_status _meas_mode fresh].
    rewrite meas_mode_byte_interrupt_off, Hw1.
    cbn [fst snd set_meas_mode set_status _meas_mode].
    rewrite meas_mode_byte_after_init, Hw2. reflexivity.
  - repeat split.
  - reflexivity.
  - reflexivity.
  - rewrite (logged_write8 _ _ _ _ _ Hw2), (logged_write8 _ _ _ _ _ Hw1),
      (logged_readU8' _ _ _ _ Hstatus), (logged_writeList _ _ _ _ _ Hstart),
      (logged_readU8' _ _ _ _ Hid).
    now rewrite <- !app_assoc.
Qed.

End Handshake.

Section ModeArgument.
Context {D : Type} `{I2CDevice D} {F : Type} `{PyFloat F}.

(** X5. The mode argument only decides whether the constructor accepts
    the call: two accepted modes give the same object, the same outcome
    and the same device state. *)
Theorem init_mode_irrelevant (mode1 mode2 : Z) (d : D) :
  In mode1 [0; 1; 2; 3; 4] ->
  In mode2 [0; 1; 2; 3; 4] ->
  __init__ (F := F) mode1 d = __init__ (F := F) mode2 d.
Proof.
  intros H1 H2. unfold __init__.
  now rewrite (valid_mode_accepted mode1 H1), (valid_mode_accepted mode2 H2).
Qed.

End ModeArgument.

(** ** Measurement-mode control *)

Section MeasurementMode.
Context {D : Type} `{I2CDevice D} {F : Type} `{PyFloat F}.

Implicit Types (self : CCS811 F) (d : Logged D).

(** The three fields of the measurement-mode byte, read back from the
    encoded mirror; the byte has no bit above bit 6. *)
Lemma meas_mode_decode bf :
  Bitfield._structure bf = MEAS_MODE_layout ->
  Z.land (Z.shiftr (Bitfield.get bf) 4) 7 = Z.land (Bitfield.field bf "DRIVE_MODE") 7 /\
  Z.testbit (Bitfield.get bf) 3 = Z.testbit (Bitfield.field bf "INT_DATARDY") 0 /\
  Z.testbit (Bitfield.get bf) 2 = Z.testbit (Bitfield.field bf "INT_THRESH") 0 /\
  0 <= Bitfield.get bf < 128.
Proof.
  intros Hbf.
  assert (Hw : Forall (fun kv : string * Z => 0 <= snd kv) MEAS_MODE_layout).
  { repeat constructor; simpl; lia. }
  assert (Hnd : NoDup (map fst MEAS_MODE_layout)).
  { refine (@bool_decide_eq_true_1 (NoDup (map fst MEAS_MODE_layout)) _ _).
    vm_compute. reflexivity. }
  assert (Hdec : forall k w, (k, w) ∈ MEAS_MODE_layout ->
            fst (fold_left (Bitfield.set_step (Bitfield.get bf)) MEAS_MODE_layout (∅, 0)) !! k
            = Some (Z.land (Bitfield.field bf k) (Bitfield.mask w))).
  { apply set_fold_field; trivial; [lia|].
    intros i _. now rewrite get_packed, Hbf. }
  cbn [fold_left MEAS_MODE_layout Bitfield.set_step fst] in Hdec.
  split; [|split; [|split]].
  - specialize (Hdec "DRIVE_MODE" 3 ltac:(set_solver)).
    rewrite lookup_insert_eq in Hdec. now injection Hdec.
  - specialize (Hdec "INT_DATARDY" 1 ltac:(set_solver)).
    rewrite lookup_insert_ne, lookup_insert_eq in Hdec by discriminate.
    injection Hdec as Hdec.
    rewrite <- (truthy_bit (Bitfield.get bf) 3), <- (truthy_bit (Bitfield.field bf "INT_DATARDY") 0) by lia.
    rewrite Z.shiftr_0_r. now f_equal.
  - specialize (Hdec "INT_THRESH" 1 ltac:(set_solver)).
    rewrite !lookup_insert_ne, lookup_insert_eq in Hdec by discriminate.
    injection Hdec as Hdec.
    rewrite <- (truthy_bit (Bitfield.get bf) 2), <- (truthy_bit (Bitfield.field bf "INT_THRESH") 0) by lia.
    rewrite Z.shiftr_0_r. now f_equal.
  - rewrite get_packed, Hbf.
    apply (packed_range bf MEAS_MODE_layout 0); [lia | exact Hw].
Qed.

Lemma field_setfield_eq bf k v : Bitfield.field (Bitfield.setfield bf k v) k = v.
Proof. unfold Bitfield.field, Bitfield.setfield. cbn. now rewrite lookup_insert_eq. Qed.

Lemma field_setfield_ne bf k k' v :
  k <> k' -> Bitfield.field (Bitfield.setfield bf k v) k' = Bitfield.field bf k'.
Proof.
  intros Hne. unfold Bitfield.field, Bitfield.setfield. cbn.
  now rewrite lookup_insert_ne.
Qed.

(** X6. [setDriveMode] validates nothing: it issues one write to the
    measurement-mode register whose drive-mode bits (4-6) are the low
    three bits of [mode] (so mode 9 goes out as mode 1), with the
    interrupt bits as the mirror has them and bit 7 clear; the stored
    measurements are untouched. *)
Theorem setDriveMode_byte self d mode :
  layouts_ok self ->
  exists b r self' d',
    setDriveMode mode (self, d) = (r, (self', d')) /\
    log d' = (log d ++ [EvWrite8 CCS811_MEAS_MODE b])%list /\
    Z.land (Z.shiftr b 4) 7 = Z.land mode 7 /\
    Z.testbit b 3 = Z.testbit (Bitfield.field (_meas_mode self) "INT_DATARDY") 0 /\
    Z.testbit b 2 = Z.testbit (Bitfield.field (_meas_mode self) "INT_THRESH") 0 /\
    0 <= b < 128 /\
    _eCO2 self' = _eCO2 self /\ _TVOC self' = _TVOC self.
Proof.
  intros (_ & Hmm & _).
  destruct (meas_mode_decode
              (Bitfield.setfield (_meas_mode self) "DRIVE_MODE" mode) Hmm)
    as (Hdm & Hi & Ht & Hb).
  rewrite field_setfield_eq in Hdm.
  rewrite field_setfield_ne in Hi, Ht by discriminate.
  unfold setDriveMode. py_unfold. cbn [set_meas_mode _meas_mode].
  cbn [write8 Logged_I2C]. destruct (write8 _ _ (inner d)) as [r i].
  eexists _, _, _, _. split; [reflexivity|]. cbn [log].
  split; [reflexivity|]. repeat split; try assumption; apply Hb.
Qed.

(** X7. [enableInterrupt] writes a measurement-mode byte with bit 3 set
    and [disableInterrupt] one with bit 3 clear; both send the drive-mode
    bits the mirror holds. *)
Theorem interrupt_bit_written self d :
  layouts_ok self ->
  (exists b r self' d',
     enableInterrupt (self, d) = (r, (self', d')) /\
     log d' = (log d ++ [EvWrite8 CCS811_MEAS_MODE b])%list /\
     Z.testbit b 3 = true /\
     Z.land (Z.shiftr b 4) 7 = Z.land (Bitfield.field (_meas_mode self) "DRIVE_MODE") 7) /\
  (exists b r self' d',
     disableInterrupt (self, d) = (r, (self', d')) /\
     log d' = (log d ++ [EvWrite8 CCS811_MEAS_MODE b])%list /\
     Z.testbit b 3 = false /\
     Z.land (Z.shiftr b 4) 7 = Z.land (Bitfield.field (_meas_mode self) "DRIVE_MODE") 7).
Proof.
  intros (_ & Hmm & _). split.
  - destruct (meas_mode_decode
                (Bitfield.setfield (_meas_mode self) "INT_DATARDY" 1) Hmm)
      as (Hdm & Hi & _ & _).
    rewrite field_setfield_eq in Hi. rewrite field_setfield_ne in Hdm by discriminate.
    unfold enableInterrupt. py_unfold. cbn [set_meas_mode _meas_mode].
    cbn [write8 Logged_I2C]. destruct (write8 _ _ (inner d)) as [r i].
    eexists _, _, _, _. split; [reflexivity|]. cbn [log].
    split; [reflexivity|]. split; assumption.
  - destruct (meas_mode_decode
                (Bitfield.setfield (_meas_mode self) "INT_DATARDY" 0) Hmm)
      as (Hdm & Hi & _ & _).
    rewrite field_setfield_eq in Hi. rewrite field_setfield_ne in Hdm by discriminate.
    unfold disableInterrupt. py_unfold. cbn [set_meas_mode _meas_mode].
    cbn [write8 Logged_I2C]. destruct (write8 _ _ (inner d)) as [r i].
    eexists _, _, _, _. split; [reflexivity|]. cbn [log].
    split; [reflexivity|]. split; assumption.
Qed.

Lemma setfield_setfield_eq bf k v w :
  Bitfield.setfield (Bitfield.setfield bf k v) k w = Bitfield.setfield bf k w.
Proof.
  unfold Bitfield.setfield. cbn [Bitfield._structure Bitfield.attrs].
  now rewrite insert_insert_eq.
Qed.

(** X8. The last call wins: after [setDriveMode mode1] went through,
    [setDriveMode mode2] leaves the same object and sends the same byte
    as [setDriveMode mode2] alone would have. *)
Theorem setDriveMode_twice self d mode1 mode2 self1 d1 :
  setDriveMode mode1 (self, d) = (Ok tt, (self1, d1)) ->
  exists b r r' self2 d2 d2',
    setDriveMode mode2 (self1, d1) = (r, (self2, d2)) /\
    setDriveMode mode2 (self, d) = (r', (self2, d2')) /\
    log d2 = (log d1 ++ [EvWrite8 CCS811_MEAS_MODE b])%list /\
    log d2' = (log d ++ [EvWrite8 CCS811_MEAS_MODE b])%list.
Proof.
  unfold setDriveMode. py_unfold. cbn [write8 Logged_I2C].
  cbn [_meas_mode set_meas_mode].
  destruct (write8 CCS811_MEAS_MODE
              (Bitfield.get (Bitfield.setfield (_meas_mode self) "DRIVE_MODE" mode1))
              (inner d)) as [r1 i1].
  intros [= -> <- <-].
  cbn [_meas_mode set_meas_mode inner log].
  rewrite setfield_setfield_eq.
  destruct (write8 CCS811_MEAS_MODE
              (Bitfield.get (Bitfield.setfield (_meas_mode self) "DRIVE_MODE" mode2))
              i1) as [r2 i2].
  destruct (write8 CCS811_MEAS_MODE
              (Bitfield.get (Bitfield.setfield (_meas_mode self) "DRIVE_MODE" mode2))
              (inner d)) as [r3 i3].
  exists (Bitfield.get (Bitfield.setfield (_meas_mode self) "DRIVE_MODE" mode2)).
  exists r2, r3, (set_meas_mode (Bitfield.setfield (_meas_mode self) "DRIVE_MODE" mode2) self).
  eexists _, _. repeat split.
Qed.

End MeasurementMode.

(** ** Polling *)

Ltac run_cases :=
  repeat (cbn [fst snd] in *;
          match goal with
          | |- context [match ?x with _ => _ end] => destruct x
          end);
  cbn [fst snd] in *.

Section Polling.
Context {D : Type} `{I2CDevice D} {F : Type} `{PyFloat F}.

Implicit Types (self : CCS811 F) (d : Logged D).

Lemma status_error_value b s :
  Bitfield._structure b = STATUS_layout ->
  Bitfield.field (Bitfield.set b s) "ERROR" = Z.b2z (Z.testbit s 0).
Proof.
  intros Hb. unfold Bitfield.field, Bitfield.set. rewrite Hb.
  cbn [Bitfield.attrs fold_left STATUS_layout Bitfield.set_step fst].
  repeat (rewrite lookup_insert_ne by discriminate).
  rewrite lookup_insert_eq. cbn [default].
  change (Bitfield.mask 1) with (Z.ones 1).
  rewrite Z.land_ones, Z.shiftr_0_r by lia. change (2 ^ 1) with 2.
  symmetry. apply Z.bit0_mod.
Qed.

(** X9. [available] answers with bit 3 (DATA_READY) of the status byte it
    reads; that read is its only transaction, and it refreshes the status
    mirror alone: measurements and measurement-mode mirror stay. *)
Theorem available_reads_data_ready self d s d1 :
  layouts_ok self ->
  readU8 CCS811_STATUS d = (Ok s, d1) ->
  exists self',
    available (self, d) = (Ok (Z.testbit s 3), (self', d1)) /\
    log d1 = (log d ++ [EvReadU8 CCS811_STATUS (Ok s)])%list /\
    _status self' = Bitfield.set (_status self) s /\
    _meas_mode self' = _meas_mode self /\
    _eCO2 self' = _eCO2 self /\ _TVOC self' = _TVOC self.
Proof.
  intros Hl Hread. eexists. split; [now apply available_ok|].
  split; [now apply logged_readU8'|]. repeat split.
Qed.

(** X10. [checkError] answers with the ERROR bit of the status byte it
    reads, as the integer 1 or 0, after that single transaction. *)
Theorem checkError_reads_error_bit self d s d1 :
  layouts_ok self ->
  readU8 CCS811_STATUS d = (Ok s, d1) ->
  exists self',
    checkError (self, d) = (Ok (Z.b2z (Z.testbit s 0)), (self', d1)) /\
    log d1 = (log d ++ [EvReadU8 CCS811_STATUS (Ok s)])%list /\
    _status self' = Bitfield.set (_status self) s /\
    _eCO2 self' = _eCO2 self /\ _TVOC self' = _TVOC self.
Proof.
  intros (Hst & _) Hread. eexists. split; [|split; [now apply logged_readU8'|]].
  - unfold checkError. py_unfold. rewrite Hread. cbn [fst snd set_status _status].
    now rewrite (status_error_value _ s Hst).
  - repeat split.
Qed.

(** X11. A transport error on the status read goes through [readData]
    as it is: nothing else is read and the object is unchanged. *)
Theorem readData_status_read_fails self d e d1 :
  readU8 CCS811_STATUS d = (Raise e, d1) ->
  readData (self, d) = (Raise e, (self, d1)) /\
  log d1 = (log d ++ [EvReadU8 CCS811_STATUS (Raise e)])%list.
Proof.
  intros Hread. split; [|now apply logged_readU8'].
  unfold readData, bind. now rewrite (available_raise _ _ _ _ Hread).
Qed.

(** X12. When data is ready but the read of the algorithm-result block
    fails, [readData] raises that transport error and the stored eCO2 and
    TVOC keep their previous values. *)
Theorem readData_result_read_fails self d s d1 e d2 :
  layouts_ok self ->
  readU8 CCS811_STATUS d = (Ok s, d1) ->
  Z.testbit s 3 = true ->
  readList CCS811_ALG_RESULT_DATA 8 d1 = (Raise e, d2) ->
  exists self',
    readData (self, d) = (Raise e, (self', d2)) /\
    fst (geteCO2 (self', d2)) = fst (geteCO2 (self, d)) /\
    fst (getTVOC (self', d2)) = fst (getTVOC (self, d)) /\
    log d2 = (log d ++ [EvReadU8 CCS811_STATUS (Ok s);
                        EvReadList CCS811_ALG_RESULT_DATA 8 (Raise e)])%list.
Proof.
  intros Hl Hread Hbit Hlist. eexists. split; [|split; [|split]].
  - unfold readData, bind at 1.
    rewrite (available_ok _ _ _ _ Hl Hread), Hbit. cbn [negb].
    py_unfold. now rewrite Hlist.
  - reflexivity.
  - reflexivity.
  - rewrite (logged_readList _ _ _ _ _ Hlist), (logged_readU8' _ _ _ _ Hread).
    now rewrite <- app_assoc.
Qed.

(** X13. [calculateTemperature] only reads: whatever the outcome, its one
    transaction is the 4-byte read of the NTC register and the object is
    left as it was. *)
Theorem calculateTemperature_only_reads self d :
  fst (snd (calculateTemperature (self, d))) = self /\
  exists r,
    log (snd (snd (calculateTemperature (self, d))))
    = (log d ++ [EvReadList CCS811_NTC 4 r])%list.
Proof.
  unfold calculateTemperature. py_unfold. cbn [readList Logged_I2C].
  destruct (readList CCS811_NTC 4 (inner d)) as [r i].
  split; [|exists r]; destruct r; run_cases; reflexivity.
Qed.

(** X14. [setEnvironmentalData] is unusable: for every humidity and
    temperature, integer or float, it raises [TypeError] without any bus
    transaction and without changing the object. *)
Theorem setEnvironmentalData_never_writes self d (humidity temperature : pyval F) :
  fst (setEnvironmentalData humidity temperature (self, d)) = Raise TypeError /\
  fst (snd (setEnvironmentalData humidity temperature (self, d))) = self /\
  log (snd (snd (setEnvironmentalData humidity temperature (self, d)))) = log d.
Proof. rewrite setEnvironmentalData_raises. repeat split. Qed.

End Polling.

(** ** Thresholds and invariants *)

Section Invariants.
Context {D : Type} `{I2CDevice D} {F : Type} `{PyFloat F}.

Implicit Types (self : CCS811 F) (d : D).

Lemma low_nibbles x y :
  Z.land x 0x0F0F = Z.land y 0x0F0F ->
  Z.land (Z.shiftr x 8) 0xF = Z.land (Z.shiftr y 8) 0xF /\
  Z.land x 0xF = Z.land y 0xF.
Proof.
  intros Heq. split.
  - change 0xF with (Z.shiftr 0x0F0F 8) at 1 2.
    rewrite <- !Z.shiftr_land. now rewrite Heq.
  - change 0xF with (Z.land 0x0F0F 0xF) at 1 2.
    rewrite !Z.land_assoc. now rewrite Heq.
Qed.

(** X15. [setThresholds] keeps only bits 0-3 and 8-11 of each threshold:
    two calls whose thresholds agree on those bits are the same call, so
    the other bits of a 16-bit threshold never reach the device. *)
Theorem setThresholds_keeps_nibbles_only self d low_med low_med' med_high med_high' hysteresis :
  Z.land low_med 0x0F0F = Z.land low_med' 0x0F0F ->
  Z.land med_high 0x0F0F = Z.land med_high' 0x0F0F ->
  setThresholds low_med med_high hysteresis (self, d)
  = setThresholds low_med' med_high' hysteresis (self, d).
Proof.
  intros Hl Hm. apply low_nibbles in Hl as [Hl1 Hl2].
  apply low_nibbles in Hm as [Hm1 Hm2].
  unfold setThresholds. now rewrite Hl1, Hl2, Hm1, Hm2.
Qed.

(** X16. No method replaces the layout of a register mirror: the layouts
    the constructor sets up hold after every call, whatever its outcome. *)
Theorem methods_keep_layouts self d mode low_med med_high hysteresis
    (humidity temperature : pyval F) :
  layouts_ok self ->
  layouts_ok (fst (snd (setDriveMode mode (self, d)))) /\
  layouts_ok (fst (snd (enableInterrupt (self, d)))) /\
  layouts_ok (fst (snd (disableInterrupt (self, d)))) /\
  layouts_ok (fst (snd (available (self, d)))) /\
  layouts_ok (fst (snd (readData (self, d)))) /\
  layouts_ok (fst (snd (checkError (self, d)))) /\
  layouts_ok (fst (snd (setThresholds low_med med_high hysteresis (self, d)))) /\
  layouts_ok (fst (snd (SWReset (self, d)))) /\
  layouts_ok (fst (snd (calculateTemperature (self, d)))) /\
  layouts_ok (fst (snd (setEnvironmentalData humidity temperature (self, d)))).
Proof.
  intros Hl.
  repeat match goal with |- _ /\ _ => split end.
  - unfold setDriveMode. py_unfold. run_bus D; run_cases; exact Hl.
  - unfold enableInterrupt. py_unfold. run_bus D; run_cases; exact Hl.
  - unfold disableInterrupt. py_unfold. run_bus D; run_cases; exact Hl.
  - unfold available. py_unfold. run_bus D; run_cases; exact Hl.
  - now apply readData_layouts_ok.
  - unfold checkError. py_unfold. run_bus D; run_cases; exact Hl.
  - unfold setThresholds. py_unfold. run_bus D; run_cases; exact Hl.
  - unfold SWReset. py_unfold. run_bus D; run_cases; exact Hl.
  - unfold calculateTemperature. py_unfold. run_bus D; run_cases; exact Hl.
  - now rewrite setEnvironmentalData_raises.
Qed.

(** X17. Only [readData] stores measurements: every other method leaves
    eCO2, TVOC and the temperature offset as they were, whatever its
    outcome. *)
Theorem measurements_only_change_in_readData self d mode low_med med_high hysteresis :
  let same (st : CCS811 F * D) :=
    _eCO2 (fst st) = _eCO2 self /\ _TVOC (fst st) = _TVOC self /\
    tempOffset (fst st) = tempOffset self in
  same (snd (setDriveMode mode (self, d))) /\
  same (snd (enableInterrupt (self, d))) /\
  same (snd (disableInterrupt (self, d))) /\
  same (snd (available (self, d))) /\
  same (snd (checkError (self, d))) /\
  same (snd (setThresholds low_med med_high hysteresis (self, d))) /\
  same (snd (SWReset (self, d))) /\
  same (snd (calculateTemperature (self, d))).
Proof.
  cbv zeta. repeat split.
  all: unfold setDriveMode, enableInterrupt, disableInterrupt, available,
         checkError, setThresholds, SWReset, calculateTemperature.
  all: py_unfold; run_bus D; run_cases; reflexivity.
Qed.

End Invariants.

(** ** The example's main loop *)

Section ExampleFacts.
Context {D : Type} `{I2CDevice D} {F : Type} `{PyFloat F}.

Implicit Types (self : CCS811 F) (d : Logged D).

(** The temperature call leaves the object alone and adds its one read
    to the log. *)
Lemma calculateTemperature_run self d res self' d' :
  calculateTemperature (self, d) = (res, (self', d')) ->
  self' = self /\ exists r, log d' = (log d ++ [EvReadList CCS811_NTC 4 r])%list.
Proof.
  unfold calculateTemperature. py_unfold. cbn [readList Logged_I2C].
  destruct (readList CCS811_NTC 4 (inner d)) as [r i].
  intros Hrun. assert (Hst : snd (res, (self', d')) = (self', d')) by reflexivity.
  rewrite <- Hrun in Hst. clear Hrun. revert Hst.
  destruct r; run_cases; intros [= <- <-]; (split; [reflexivity | eexists; reflexivity]).
Qed.

Lemma py_truth_error_byte (e : bool) (b5 : Z) :
  py_truth (F := F) (PyInt (if e then b5 else 0)) = e && negb (b5 =? 0).
Proof. now destruct e. Qed.

(** X18. A turn of the example's loop that finds no data ready reads the
    status once, prints nothing and goes to sleep. *)
Theorem loop_body_no_data self d s d1 :
  layouts_ok self ->
  readU8 CCS811_STATUS d = (Ok s, d1) ->
  Z.testbit s 3 = false ->
  exists self',
    loop_body (self, d) = (Ok (Slept None), (self', d1)) /\
    log d1 = (log d ++ [EvReadU8 CCS811_STATUS (Ok s)])%list.
Proof.
  intros Hl Hread Hbit. eexists. split; [|now apply logged_readU8'].
  unfold loop_body, bind at 1.
  rewrite (available_ok _ _ _ _ Hl Hread), Hbit. reflexivity.
Qed.

(** X19. A turn that finds data ready and gets a temperature reads the
    status a second time, inside [readData].  If that second status byte
    has DATA_READY clear, the turn has made three reads, does not read
    the result block and prints the eCO2 and TVOC stored before the turn
    as if they were new.  If it has DATA_READY set and the 8-byte read
    succeeds, the turn has made four reads and prints the eCO2 and TVOC
    of that block; only when the ERROR bit of the second status byte is
    set and payload byte 5 is not 0 does it print the error line instead
    and stay in the empty loop for ever. *)
Theorem loop_body_data_ready self d s1 d1 temp self1 d2 s2 d3 :
  layouts_ok self ->
  readU8 CCS811_STATUS d = (Ok s1, d1) ->
  Z.testbit s1 3 = true ->
  calculateTemperature (set_status (Bitfield.set (_status self) s1) self, d1)
  = (Ok temp, (self1, d2)) ->
  readU8 CCS811_STATUS d2 = (Ok s2, d3) ->
  exists ntc,
    log d3 = (log d ++ [EvReadU8 CCS811_STATUS (Ok s1);
                        EvReadList CCS811_NTC 4 ntc;
                        EvReadU8 CCS811_STATUS (Ok s2)])%list /\
    (Z.testbit s2 3 = false ->
     exists self',
       loop_body (self, d)
       = (Ok (Slept (Some (PrintReading (_eCO2 self) (_TVOC self) temp))),
          (self', d3))) /\
    (Z.testbit s2 3 = true ->
     forall b0 b1 b2 b3 b4 b5 b6 b7 d4,
       readList CCS811_ALG_RESULT_DATA 8 d3
       = (Ok [b0; b1; b2; b3; b4; b5; b6; b7], d4) ->
       exists self',
         loop_body (self, d)
         = (Ok (if Z.testbit s2 0 && negb (b5 =? 0)
                then Stuck PrintError
                else Slept (Some (PrintReading (Z.lor (Z.shiftl b0 8) b1)
                                               (Z.lor (Z.shiftl b2 8) b3) temp))),
            (self', d4)) /\
         log d4 = (log d3 ++ [EvReadList CCS811_ALG_RESULT_DATA 8
                                (Ok [b0; b1; b2; b3; b4; b5; b6; b7])])%list).
Proof.
  intros Hl Hread1 Hbit1 Htemp Hread2.
  destruct (calculateTemperature_run _ _ _ _ _ Htemp) as (-> & ntc & Hlog2).
  assert (Hl1 : layouts_ok (set_status (Bitfield.set (_status self) s1) self))
    by exact Hl.
  exists ntc. split; [|split].
  - rewrite (logged_readU8' _ _ _ _ Hread2), Hlog2,
      (logged_readU8' _ _ _ _ Hread1).
    now rewrite <- !app_assoc.
  - intros Hbit2. eexists.
    unfold loop_body, bind at 1.
    rewrite (available_ok _ _ _ _ Hl Hread1), Hbit1.
    unfold bind at 1. rewrite Htemp.
    unfold bind at 1, readData, bind at 1.
    rewrite (available_ok _ _ _ _ Hl1 Hread2), Hbit2.
    reflexivity.
  - intros Hbit2 b0 b1 b2 b3 b4 b5 b6 b7 d4 Hlist.
    pose proof (readData_ok _ _ _ _ _ _ _ _ _ _ _ _ _ Hl1 Hread2 Hbit2 Hlist) as Hrd.
    eexists. split; [|now apply logged_readList].
    unfold loop_body, bind at 1.
    rewrite (available_ok _ _ _ _ Hl Hread1), Hbit1.
    unfold bind at 1. rewrite Htemp.
    unfold bind at 1. rewrite Hrd.
    rewrite py_truth_error_byte.
    destruct (Z.testbit s2 0 && negb (b5 =? 0)); reflexivity.
Qed.

(** X20. When data is ready and the NTC block has a zero vref, the turn
    ends in an uncaught [ZeroDivisionError]: nothing is printed and the
    result block is not read. *)
Theorem loop_body_vref_zero self d s d1 b0 b1 b2 b3 d2 :
  layouts_ok self ->
  readU8 CCS811_STATUS d = (Ok s, d1) ->
  Z.testbit s 3 = true ->
  readList CCS811_NTC 4 d1 = (Ok [b0; b1; b2; b3], d2) ->
  Z.lor (Z.shiftl b0 8) b1 = 0 ->
  exists self',
    loop_body (self, d) = (Raise ZeroDivisionError, (self', d2)) /\
    log d2 = (log d ++ [EvReadU8 CCS811_STATUS (Ok s);
                        EvReadList CCS811_NTC 4 (Ok [b0; b1; b2; b3])])%list.
Proof.
  intros Hl Hread Hbit Hlist Hvref. eexists. split.
  - unfold loop_body, bind at 1.
    rewrite (available_ok _ _ _ _ Hl Hread), Hbit.
    unfold bind at 1, calculateTemperature. py_unfold. rewrite Hlist.
    cbn [fst snd list_getitem lookup list_lookup].
    rewrite Hvref. unfold float_div. rewrite f_of_Z_0. reflexivity.
  - rewrite (logged_readList _ _ _ _ _ Hlist), (logged_readU8' _ _ _ _ Hread).
    now rewrite <- !app_assoc.
Qed.

End ExampleFacts.

(** ** The temperature call at the thermistor's nominal point *)

Lemma R_is_zero_false (x : R) : x <> 0%R -> R_is_zero x = false.
Proof.
  intros Hx. unfold R_is_zero. destruct (Req_dec_T x 0%R); [contradiction | reflexivity].
Qed.

Lemma R_log_pos (x : R) : (0 < x)%R -> R_log x = Some (ln x).
Proof.
  intros Hx. unfold R_log. destruct (Rlt_dec 0%R x); [reflexivity | contradiction].
Qed.

(** With vrntc / vref = 1 / 10 no division is by zero and the logarithm
    is defined: the call answers with a float. *)
Lemma nominal_temperature_ok (D : Type) `{I2CDevice D} (self : CCS811 R) (d d1 : D) :
  readList CCS811_NTC 4 d = (Ok ntc_nominal, d1) ->
  exists temp, calculateTemperature (self, d) = (Ok temp, (self, d1)).
Proof.
  intros Hlist. unfold calculateTemperature. py_unfold. rewrite Hlist.
  cbn [fst snd list_getitem lookup list_lookup ntc_nominal].
  change (Z.lor (Z.shiftl 0x00 8) 0x0A) with 10.
  change (Z.lor (Z.shiftl 0x00 8) 0x01) with 1.
  unfold float_div, math_log, CCS811_REF_RESISTOR.
  cbn [f_is_zero f_of_Z f_mul f_lit f_log f_add f_sub f_div R_PyFloat].
  assert (Hq : forall n : positive, Q2R (Z.pos n # 1) = IZR (Z.pos n)).
  { intros n. unfold Q2R. cbn [Qnum Qden]. change (IZR 1) with 1%R.
    now rewrite Rinv_1, Rmult_1_r. }
  assert (Hk : Q2R (27315 # 100) = (27315 / 100)%R) by reflexivity.
  rewrite !Hq, Hk.
  rewrite (R_is_zero_false (IZR 10)) by lra. cbn [fst snd].
  rewrite (R_is_zero_false (IZR 10000)) by lra. cbn [fst snd].
  replace (IZR 1 * IZR 100000 / IZR 10 / IZR 10000)%R with 1%R by lra.
  rewrite (R_log_pos 1) by lra. rewrite ln_1. cbn [fst snd].
  rewrite (R_is_zero_false (IZR 3380)) by lra. cbn [fst snd].
  rewrite (R_is_zero_false (IZR 25 + 27315 / 100)%R) by lra. cbn [fst snd].
  rewrite (R_is_zero_false (0 / IZR 3380 + IZR 1 / (IZR 25 + 27315 / 100))%R) by lra.
  cbn [fst snd]. unfold py_sub. cbn [as_int]. eexists. reflexivity.
Qed.

(** ** Instances on the test double *)

Lemma init_wrong_hw_id_witness :
  __init__ (F := R) CCS811_DRIVE_MODE_1SEC (other_chip 0x80)
  = (Raise (Exception "Device ID returned is not correct! Please check your wiring."),
     after (other_chip 0x80) (EvReadU8 CCS811_HW_ID (Ok 0x80))) /\
  log (after (other_chip 0x80) (EvReadU8 CCS811_HW_ID (Ok 0x80)))
  = (log (other_chip 0x80) ++ [EvReadU8 CCS811_HW_ID (Ok 0x80)])%list.
Proof.
  apply (init_wrong_hw_id CCS811_DRIVE_MODE_1SEC (other_chip 0x80) 0x80).
  - cbv. lia.
  - vm_compute. reflexivity.
  - discriminate.
Defined.

Lemma init_device_error_witness :
  exists d3,
    __init__ (F := R) CCS811_DRIVE_MODE_1SEC (sensor 0x91 [] [])
    = (Raise (Exception "Device returned an Error! Try removing and reapplying power to the device and running the code again."),
       d3) /\
    log d3 = (log (sensor 0x91 [] []) ++
              [EvReadU8 CCS811_HW_ID (Ok CCS811_HW_ID_CODE);
               EvWriteList CCS811_BOOTLOADER_APP_START [];
               EvReadU8 CCS811_STATUS (Ok 0x91)])%list.
Proof.
  eexists.
  eapply (init_device_error CCS811_DRIVE_MODE_1SEC (sensor 0x91 [] [])).
  - cbv. lia.
  - reflexivity.
  - reflexivity.
  - reflexivity.
  - reflexivity.
Defined.

Lemma init_boot_mode_witness :
  exists d3,
    __init__ (F := R) CCS811_DRIVE_MODE_1SEC (sensor 0x10 [] [])
    = (Raise (Exception "Device did not enter application mode! If you got here, there may be a problem with the firmware on your sensor."),
       d3) /\
    log d3 = (log (sensor 0x10 [] []) ++
              [EvReadU8 CCS811_HW_ID (Ok CCS811_HW_ID_CODE);
               EvWriteList CCS811_BOOTLOADER_APP_START [];
               EvReadU8 CCS811_STATUS (Ok 0x10)])%list.
Proof.
  eexists.
  eapply (init_boot_mode CCS811_DRIVE_MODE_1SEC (sensor 0x10 [] [])).
  - cbv. lia.
  - reflexivity.
  - reflexivity.
  - reflexivity.
  - reflexivity.
  - reflexivity.
Defined.

Lemma init_success_witness :
  exists d5 self,
    __init__ (F := R) CCS811_DRIVE_MODE_250MS (sensor 0x90 [] []) = (Ok self, d5) /\
    layouts_ok self /\
    fst (geteCO2 (self, d5)) = Ok 0 /\
    fst (getTVOC (self, d5)) = Ok 0 /\
    log d5 = (log (sensor 0x90 [] []) ++
              [EvReadU8 CCS811_HW_ID (Ok CCS811_HW_ID_CODE);
               EvWriteList CCS811_BOOTLOADER_APP_START [];
               EvReadU8 CCS811_STATUS (Ok 0x90);
               EvWrite8 CCS811_MEAS_MODE 0x00;
               EvWrite8 CCS811_MEAS_MODE 0x10])%list.
Proof.
  eexists.
  eapply (init_success CCS811_DRIVE_MODE_250MS (sensor 0x90 [] [])).
  - cbv. lia.
  - reflexivity.
  - reflexivity.
  - reflexivity.
  - reflexivity.
  - reflexivity.
  - reflexivity.
  - reflexivity.
Defined.

Lemma init_mode_irrelevant_witness :
  __init__ (F := R) CCS811_DRIVE_MODE_IDLE (sensor 0x90 [] [])
  = __init__ (F := R) CCS811_DRIVE_MODE_250MS (sensor 0x90 [] []).
Proof.
  apply (init_mode_irrelevant CCS811_DRIVE_MODE_IDLE CCS811_DRIVE_MODE_250MS
           (sensor 0x90 [] [])); cbv; lia.
Defined.

Lemma setDriveMode_byte_witness :
  exists b r self' d',
    setDriveMode 9 (running_self, sensor 0x90 [] []) = (r, (self', d')) /\
    log d' = (log (sensor 0x90 [] []) ++ [EvWrite8 CCS811_MEAS_MODE b])%list /\
    Z.land (Z.shiftr b 4) 7 = Z.land 9 7 /\
    Z.testbit b 3 = Z.testbit (Bitfield.field (_meas_mode running_self) "INT_DATARDY") 0 /\
    Z.testbit b 2 = Z.testbit (Bitfield.field (_meas_mode running_self) "INT_THRESH") 0 /\
    0 <= b < 128 /\
    _eCO2 self' = _eCO2 running_self /\ _TVOC self' = _TVOC running_self.
Proof.
  apply (setDriveMode_byte running_self (sensor 0x90 [] []) 9).
  exact running_self_layouts.
Defined.

Lemma interrupt_bit_written_witness :
  (exists b r self' d',
     enableInterrupt (running_self, sensor 0x90 [] []) = (r, (self', d')) /\
     log d' = (log (sensor 0x90 [] []) ++ [EvWrite8 CCS811_MEAS_MODE b])%list /\
     Z.testbit b 3 = true /\
     Z.land (Z.shiftr b 4) 7
     = Z.land (Bitfield.field (_meas_mode running_self) "DRIVE_MODE") 7) /\
  (exists b r self' d',
     disableInterrupt (running_self, sensor 0x90 [] []) = (r, (self', d')) /\
     log d' = (log (sensor 0x90 [] []) ++ [EvWrite8 CCS811_MEAS_MODE b])%list /\
     Z.testbit b 3 = false /\
     Z.land (Z.shiftr b 4) 7
     = Z.land (Bitfield.field (_meas_mode running_self) "DRIVE_MODE") 7).
Proof.
  apply (interrupt_bit_written running_self (sensor 0x90 [] [])).
  exact running_self_layouts.
Defined.

Lemma setDriveMode_twice_witness :
  exists b r r' self2 d2 d2',
    setDriveMode CCS811_DRIVE_MODE_60SEC
      (snd (setDriveMode CCS811_DRIVE_MODE_10SEC (running_self, sensor 0x90 [] [])))
    = (r, (self2, d2)) /\
    setDriveMode CCS811_DRIVE_MODE_60SEC (running_self, sensor 0x90 [] [])
    = (r', (self2, d2')) /\
    log d2
    = (log (snd (snd (setDriveMode CCS811_DRIVE_MODE_10SEC
                        (running_self, sensor 0x90 [] [])))) ++
       [EvWrite8 CCS811_MEAS_MODE b])%list /\
    log d2' = (log (sensor 0x90 [] []) ++ [EvWrite8 CCS811_MEAS_MODE b])%list.
Proof.
  apply (setDriveMode_twice running_self (sensor 0x90 [] [])
           CCS811_DRIVE_MODE_10SEC CCS811_DRIVE_MODE_60SEC
           (fst (snd (setDriveMode CCS811_DRIVE_MODE_10SEC
                        (running_self, sensor 0x90 [] []))))
           (snd (snd (setDriveMode CCS811_DRIVE_MODE_10SEC
                        (running_self, sensor 0x90 [] []))))).
  vm_compute. reflexivity.
Defined.

Lemma available_reads_data_ready_witness :
  exists self',
    available (running_self, sensor 0x98 alg_400_50 [])
    = (Ok (Z.testbit 0x98 3),
       (self', after (sensor 0x98 alg_400_50 []) (EvReadU8 CCS811_STATUS (Ok 0x98)))) /\
    log (after (sensor 0x98 alg_400_50 []) (EvReadU8 CCS811_STATUS (Ok 0x98)))
    = (log (sensor 0x98 alg_400_50 []) ++ [EvReadU8 CCS811_STATUS (Ok 0x98)])%list /\
    _status self' = Bitfield.set (_status running_self) 0x98 /\
    _meas_mode self' = _meas_mode running_self /\
    _eCO2 self' = _eCO2 running_self /\ _TVOC self' = _TVOC running_self.
Proof.
  apply (available_reads_data_ready running_self (sensor 0x98 alg_400_50 []) 0x98).
  - exact running_self_layouts.
  - vm_compute. reflexivity.
Defined.

Lemma checkError_reads_error_bit_witness :
  exists self',
    checkError (running_self, sensor 0x99 alg_error_7 [])
    = (Ok (Z.b2z (Z.testbit 0x99 0)),
       (self', after (sensor 0x99 alg_error_7 []) (EvReadU8 CCS811_STATUS (Ok 0x99)))) /\
    log (after (sensor 0x99 alg_error_7 []) (EvReadU8 CCS811_STATUS (Ok 0x99)))
    = (log (sensor 0x99 alg_error_7 []) ++ [EvReadU8 CCS811_STATUS (Ok 0x99)])%list /\
    _status self' = Bitfield.set (_status running_self) 0x99 /\
    _eCO2 self' = _eCO2 running_self /\ _TVOC self' = _TVOC running_self.
Proof.
  apply (checkError_reads_error_bit running_self (sensor 0x99 alg_error_7 []) 0x99).
  - exact running_self_layouts.
  - vm_compute. reflexivity.
Defined.

Lemma readData_status_read_fails_witness :
  readData (running_self, other_chip 0x81)
  = (Raise IOError,
     (running_self,
      after (other_chip 0x81) (EvReadU8 CCS811_STATUS (Raise IOError)))) /\
  log (after (other_chip 0x81) (EvReadU8 CCS811_STATUS (Raise IOError)))
  = (log (other_chip 0x81) ++ [EvReadU8 CCS811_STATUS (Raise IOError)])%list.
Proof.
  apply (readData_status_read_fails running_self (other_chip 0x81) IOError).
  vm_compute. reflexivity.
Defined.

Lemma readData_result_read_fails_witness :
  exists self',
    readData (running_self, status_only 0x98)
    = (Raise IOError,
       (self',
        after (after (status_only 0x98) (EvReadU8 CCS811_STATUS (Ok 0x98)))
              (EvReadList CCS811_ALG_RESULT_DATA 8 (Raise IOError)))) /\
    fst (geteCO2 (self',
        after (after (status_only 0x98) (EvReadU8 CCS811_STATUS (Ok 0x98)))
              (EvReadList CCS811_ALG_RESULT_DATA 8 (Raise IOError))))
    = fst (geteCO2 (running_self, status_only 0x98)) /\
    fst (getTVOC (self',
        after (after (status_only 0x98) (EvReadU8 CCS811_STATUS (Ok 0x98)))
              (EvReadList CCS811_ALG_RESULT_DATA 8 (Raise IOError))))
    = fst (getTVOC (running_self, status_only 0x98)) /\
    log (after (after (status_only 0x98) (EvReadU8 CCS811_STATUS (Ok 0x98)))
               (EvReadList CCS811_ALG_RESULT_DATA 8 (Raise IOError)))
    = (log (status_only 0x98) ++
       [EvReadU8 CCS811_STATUS (Ok 0x98);
        EvReadList CCS811_ALG_RESULT_DATA 8 (Raise IOError)])%list.
Proof.
  apply (readData_result_read_fails running_self (status_only 0x98) 0x98
           (after (status_only 0x98) (EvReadU8 CCS811_STATUS (Ok 0x98))) IOError).
  - exact running_self_layouts.
  - vm_compute. reflexivity.
  - reflexivity.
  - vm_compute. reflexivity.
Defined.

Lemma setThresholds_keeps_nibbles_only_witness :
  setThresholds 0x1234 0x5678 50 (running_self, sensor 0x90 [] [])
  = setThresholds 0x0204 0x0608 50 (running_self, sensor 0x90 [] []).
Proof.
  apply (setThresholds_keeps_nibbles_only running_self (sensor 0x90 [] [])
           0x1234 0x0204 0x5678 0x0608 50); reflexivity.
Defined.

Lemma methods_keep_layouts_witness :
  layouts_ok (fst (snd (setDriveMode 9 (running_self, sensor 0x98 alg_400_50 ntc_nominal)))) /\
  layouts_ok (fst (snd (enableInterrupt (running_self, sensor 0x98 alg_400_50 ntc_nominal)))) /\
  layouts_ok (fst (snd (disableInterrupt (running_self, sensor 0x98 alg_400_50 ntc_nominal)))) /\
  layouts_ok (fst (snd (available (running_self, sensor 0x98 alg_400_50 ntc_nominal)))) /\
  layouts_ok (fst (snd (readData (running_self, sensor 0x98 alg_400_50 ntc_nominal)))) /\
  layouts_ok (fst (snd (checkError (running_self, sensor 0x98 alg_400_50 ntc_nominal)))) /\
  layouts_ok (fst (snd (setThresholds 1500 2500 50
                          (running_self, sensor 0x98 alg_400_50 ntc_nominal)))) /\
  layouts_ok (fst (snd (SWReset (running_self, sensor 0x98 alg_400_50 ntc_nominal)))) /\
  layouts_ok (fst (snd (calculateTemperature
                          (running_self, sensor 0x98 alg_400_50 ntc_nominal)))) /\
  layouts_ok (fst (snd (setEnvironmentalData (PyInt 50) (PyInt 25)
                          (running_self, sensor 0x98 alg_400_50 ntc_nominal)))).
Proof.
  apply (methods_keep_layouts running_self (sensor 0x98 alg_400_50 ntc_nominal)
           9 1500 2500 50 (PyInt 50) (PyInt 25)).
  exact running_self_layouts.
Defined.

Lemma loop_body_no_data_witness :
  exists self',
    loop_body (running_self, sensor 0x90 alg_400_50 ntc_nominal)
    = (Ok (Slept None),
       (self',
        after (sensor 0x90 alg_400_50 ntc_nominal) (EvReadU8 CCS811_STATUS (Ok 0x90)))) /\
    log (after (sensor 0x90 alg_400_50 ntc_nominal) (EvReadU8 CCS811_STATUS (Ok 0x90)))
    = (log (sensor 0x90 alg_400_50 ntc_nominal) ++
       [EvReadU8 CCS811_STATUS (Ok 0x90)])%list.
Proof.
  apply (loop_body_no_data running_self (sensor 0x90 alg_400_50 ntc_nominal) 0x90).
  - exact running_self_layouts.
  - vm_compute. reflexivity.
  - reflexivity.
Defined.

Lemma loop_body_data_ready_witness :
  (exists temp self' d3,
     loop_body (measured_self, queued_sensor [0x98; 0x90] alg_800_100 ntc_nominal)
     = (Ok (Slept (Some (PrintReading 400 50 temp))), (self', d3)) /\
     log d3 = [EvReadU8 CCS811_STATUS (Ok 0x98);
               EvReadList CCS811_NTC 4 (Ok ntc_nominal);
               EvReadU8 CCS811_STATUS (Ok 0x90)]) /\
  (exists temp self' d4,
     loop_body (running_self, sensor 0x98 alg_400_50 ntc_nominal)
     = (Ok (Slept (Some (PrintReading 400 50 temp))), (self', d4)) /\
     log d4 = [EvReadU8 CCS811_STATUS (Ok 0x98);
               EvReadList CCS811_NTC 4 (Ok ntc_nominal);
               EvReadU8 CCS811_STATUS (Ok 0x98);
               EvReadList CCS811_ALG_RESULT_DATA 8 (Ok alg_400_50)]).
Proof.
  split.
  - pose (q0 := queued_sensor [0x98; 0x90] alg_800_100 ntc_nominal).
    pose (q1 := MkLogged (MkQueued [0x90] (inner (sensor 0x00 alg_800_100 ntc_nominal)))
                  [EvReadU8 CCS811_STATUS (Ok 0x98)]).
    pose (q2 := MkLogged (inner q1)
                  (log q1 ++ [EvReadList CCS811_NTC 4 (Ok ntc_nominal)])).
    pose (q3 := MkLogged (MkQueued [] (inner (sensor 0x00 alg_800_100 ntc_nominal)))
                  (log q2 ++ [EvReadU8 CCS811_STATUS (Ok 0x90)])).
    assert (H1 : readU8 CCS811_STATUS q0 = (Ok 0x98, q1)) by (vm_compute; reflexivity).
    assert (H2 : readList CCS811_NTC 4 q1 = (Ok ntc_nominal, q2)) by (vm_compute; reflexivity).
    assert (H3 : readU8 CCS811_STATUS q2 = (Ok 0x90, q3)) by (vm_compute; reflexivity).
    destruct (nominal_temperature_ok (Logged Queued)
                (set_status (Bitfield.set (_status measured_self) 0x98) measured_self)
                q1 q2 H2) as [temp Htemp].
    destruct (loop_body_data_ready measured_self q0 0x98 q1 temp _ q2 0x90 q3
                running_self_layouts H1 eq_refl Htemp H3)
      as (ntc & Hlog & Hstale & _).
    destruct (Hstale eq_refl) as [self' Hrun].
    exists temp, self', q3. split; [exact Hrun | reflexivity].
  - pose (d0 := sensor 0x98 alg_400_50 ntc_nominal).
    pose (d1 := after d0 (EvReadU8 CCS811_STATUS (Ok 0x98))).
    pose (d2 := after d1 (EvReadList CCS811_NTC 4 (Ok ntc_nominal))).
    pose (d3 := after d2 (EvReadU8 CCS811_STATUS (Ok 0x98))).
    pose (d4 := after d3 (EvReadList CCS811_ALG_RESULT_DATA 8 (Ok alg_400_50))).
    assert (H1 : readU8 CCS811_STATUS d0 = (Ok 0x98, d1)) by (vm_compute; reflexivity).
    assert (H2 : readList CCS811_NTC 4 d1 = (Ok ntc_nominal, d2)) by (vm_compute; reflexivity).
    assert (H3 : readU8 CCS811_STATUS d2 = (Ok 0x98, d3)) by (vm_compute; reflexivity).
    assert (H4 : readList CCS811_ALG_RESULT_DATA 8 d3
                 = (Ok [0x01; 0x90; 0x00; 0x32; 0x00; 0x00; 0x00; 0x00], d4))
      by (vm_compute; reflexivity).
    destruct (nominal_temperature_ok (Logged RegFile)
                (set_status (Bitfield.set (_status running_self) 0x98) running_self)
                d1 d2 H2) as [temp Htemp].
    destruct (loop_body_data_ready running_self d0 0x98 d1 temp _ d2 0x98 d3
                running_self_layouts H1 eq_refl Htemp H3)
      as (ntc & Hlog & _ & Hready).
    destruct (Hready eq_refl _ _ _ _ _ _ _ _ d4 H4) as (self' & Hrun & Hlog4).
    exists temp, self', d4. split; [exact Hrun | reflexivity].
Defined.

Lemma loop_body_vref_zero_witness :
  exists self',
    loop_body (running_self, sensor 0x98 alg_400_50 ntc_vref_0)
    = (Raise ZeroDivisionError,
       (self',
        after (after (sensor 0x98 alg_400_50 ntc_vref_0)
                     (EvReadU8 CCS811_STATUS (Ok 0x98)))
              (EvReadList CCS811_NTC 4 (Ok ntc_vref_0)))) /\
    log (after (after (sensor 0x98 alg_400_50 ntc_vref_0)
                      (EvReadU8 CCS811_STATUS (Ok 0x98)))
               (EvReadList CCS811_NTC 4 (Ok ntc_vref_0)))
    = (log (sensor 0x98 alg_400_50 ntc_vref_0) ++
       [EvReadU8 CCS811_STATUS (Ok 0x98);
        EvReadList CCS811_NTC 4 (Ok ntc_vref_0)])%list.
Proof.
  apply (loop_body_vref_zero running_self (sensor 0x98 alg_400_50 ntc_vref_0) 0x98
           (after (sensor 0x98 alg_400_50 ntc_vref_0) (EvReadU8 CCS811_STATUS (Ok 0x98)))
           0x00 0x00 0x12 0x34).
  - exact running_self_layouts.
  - vm_compute. reflexivity.
  - reflexivity.
  - vm_compute. reflexivity.
  - reflexivity.
Defined.
